(** * A shallow embedding of cargo-single-pyo3 (src/main.rs)

    The tool reads one Rust file, collects the leading [// ] dependency
    directives, writes a Cargo workspace into the temporary directory,
    runs [cargo build] there and copies the produced shared library next to
    the caller.  The model keeps the program's structure: the filesystem is
    an explicit store threaded through a small state-and-error monad, the
    [cargo] subprocess is an oracle on that store, and [anyhow::Result] is
    [result] over the error kinds the program can produce. *)

From Stdlib Require Import String Ascii ZArith.
From stdpp Require Import base gmap strings list.

Local Open Scope string_scope.

(** ** Paths

    A [std::path::Path] as the list of its components (Rust compares paths
    by components).  An absolute path starts with the component ["/"]. *)
Definition Path := list string.

(** [Path::join] with a relative single component. *)
Definition join (p : Path) (c : string) : Path := app p [c].

(** A component as [Path::components] yields it after the root: a
    non-empty name without ['/'] that is neither [.] nor [..]. *)
Definition normal_component (c : string) : bool :=
  negb (String.eqb c "" || String.eqb c "." || String.eqb c ".." ||
        existsb (fun a => Ascii.eqb a "/"%char) (list_ascii_of_string c)).

(** An absolute path made of normal components only.  On a filesystem
    without symbolic or hard links, where names are compared exactly, this
    is the one path through which the kernel reaches a file: two such paths
    name the same file exactly when they are equal.  The filesystem below
    stores files and directories under such paths. *)
Definition canonical (p : Path) : bool :=
  match p with
  | "/" :: r => forallb normal_component r
  | _ => false
  end.

(** The kernel resolves a relative path against the current directory of
    the process; a leading [.] ([Component::CurDir]) is that directory
    itself.  A [..] component is kept as it is. *)
Definition resolve (cwd p : Path) : Path :=
  match p with
  | "/" :: _ => p
  | "." :: r => app cwd r
  | _ => app cwd p
  end.

(** ** Errors and results (anyhow::Error) *)

(** The [std::io::ErrorKind]s the filesystem model produces. *)
Inductive io_kind :=
  | NotFound
  | AlreadyExists
  | NotADirectory
  | IsADirectory
  | InvalidInput.

Inductive Error :=
  | IoError (k : io_kind)          (* std::io::Error, carried by [?] *)
  | Utf8Error                      (* std::string::FromUtf8Error *)
  | ContextError (msg : string)    (* Option::context(msg) on None *)
  | Bail (msg : string).           (* bail!(msg) *)

Inductive result (A : Type) :=
  | Ok (a : A)
  | Err (e : Error).
Arguments Ok {A} a.
Arguments Err {A} e.

(** Linux text of an OS error, as [Display for std::io::Error] prints it
    ("<strerror> (os error <errno>)"); a [std::io::Error] coming from a
    failed system call carries only the errno. *)
Definition io_kind_message (k : io_kind) : string :=
  match k with
  | NotFound => "No such file or directory (os error 2)"
  | AlreadyExists => "File exists (os error 17)"
  | NotADirectory => "Not a directory (os error 20)"
  | IsADirectory => "Is a directory (os error 21)"
  | InvalidInput =>
      "the source path is neither a regular file nor a symlink to a regular file"
  end.

(** [Display for anyhow::Error]: the message of the outermost error. *)
Definition error_message (e : Error) : string :=
  match e with
  | IoError k => io_kind_message k
  | Utf8Error => "invalid utf-8 sequence"  (* followed by the length and index *)
  | ContextError msg => msg
  | Bail msg => msg
  end.

(** ** The filesystem *)

(** Files and directories are stored under their [canonical] paths; the
    model has no symbolic or hard links and no permissions (every file can
    be read and every directory written). *)
Record FS := mkFS {
  files : gmap Path string;   (* regular files and their bytes *)
  dirs : gset Path            (* existing directories *)
}.

Definition parent (p : Path) : Path := removelast p.

Definition is_file (fs : FS) (p : Path) : bool :=
  match files fs !! p with Some _ => true | None => false end.

Definition is_dir (fs : FS) (p : Path) : bool := bool_decide (p ∈ dirs fs).

Definition set_file (fs : FS) (p : Path) (data : string) : FS :=
  mkFS (<[p := data]> (files fs)) (dirs fs).

(** The non-empty prefixes of a path: the directories [create_dir_all]
    walks through. *)
Fixpoint ancestors (p : Path) : list Path :=
  match p with
  | [] => []
  | c :: r => [c] :: map (cons c) (ancestors r)
  end.

(** [std::fs::read]. *)
Definition fs_read_fn (fs : FS) (p : Path) : result string :=
  match files fs !! p with
  | Some data => Ok data
  | None => if is_dir fs p then Err (IoError IsADirectory) else Err (IoError NotFound)
  end.

(** [std::fs::write]: creates or truncates [p]; its parent must exist. *)
Definition fs_write_fn (fs : FS) (p : Path) (data : string) : result FS :=
  if is_dir fs p then Err (IoError IsADirectory)
  else if negb (is_dir fs (parent p)) then Err (IoError NotFound)
  else Ok (set_file fs p data).

(** [std::fs::create_dir_all]: succeeds when [p] is already a directory,
    fails when one of its prefixes is a regular file: [mkdir] reports
    NotADirectory when a proper prefix is one, and [create_dir_all] reports
    AlreadyExists when [p] itself is one. *)
Definition fs_create_dir_all_fn (fs : FS) (p : Path) : result FS :=
  if existsb (is_file fs) (ancestors p) then
    Err (IoError (if existsb (is_file fs) (ancestors (parent p))
                  then NotADirectory else AlreadyExists))
  else Ok (mkFS (files fs) (list_to_set (ancestors p) ∪ dirs fs)).

(** [std::fs::copy]: the source must be a regular file; the destination is
    opened with truncation before the bytes are copied, so when both name
    the same file it ends up empty (the documented caveat of [fs::copy]). *)
Definition fs_copy_fn (fs : FS) (src dst : Path) : result FS :=
  match files fs !! src with
  | None => if is_dir fs src then Err (IoError InvalidInput) else Err (IoError NotFound)
  | Some data =>
      if is_dir fs dst then Err (IoError IsADirectory)
      else if negb (is_dir fs (parent dst)) then Err (IoError NotFound)
      else if bool_decide (src = dst) then Ok (set_file fs dst "")
      else Ok (set_file fs dst data)
  end.

(** ** The world and the monad *)

(** One spawned subprocess: program, arguments, working directory and the
    filesystem it was started on. *)
Record Spawn := mkSpawn {
  sp_program : string;
  sp_args : list string;
  sp_cwd : Path;
  sp_fs : FS
}.

Record World := mkWorld {
  w_fs : FS;
  w_log : list Spawn;       (* subprocesses started, oldest first *)
  w_stdout : list string    (* lines printed with println! *)
}.

Definition M (A : Type) : Type := World -> result A * World.

Global Instance M_ret : MRet M := fun A a w => (Ok a, w).
Global Instance M_bind : MBind M := fun A B k m w =>
  match m w with
  | (Ok a, w') => k a w'
  | (Err e, w') => (Err e, w')
  end.

Definition fail {A} (e : Error) : M A := fun w => (Err e, w).

Definition lift_fs (r : result FS) : M unit := fun w =>
  match r with
  | Ok fs' => (Ok tt, mkWorld fs' (w_log w) (w_stdout w))
  | Err e => (Err e, w)
  end.

Definition fs_read (p : Path) : M string := fun w => (fs_read_fn (w_fs w) p, w).
Definition fs_write (p : Path) (data : string) : M unit :=
  fun w => lift_fs (fs_write_fn (w_fs w) p data) w.
Definition fs_create_dir_all (p : Path) : M unit :=
  fun w => lift_fs (fs_create_dir_all_fn (w_fs w) p) w.
Definition fs_copy (src dst : Path) : M unit :=
  fun w => lift_fs (fs_copy_fn (w_fs w) src dst) w.

(** ** Text *)

Definition in_range (lo hi b : nat) : bool := Nat.leb lo b && Nat.leb b hi.
Definition cont_byte (b : nat) : bool := in_range 128 191 b.

(** Well-formed UTF-8 (RFC 3629): no overlong forms, no surrogates,
    nothing above U+10FFFF; the check of [String::from_utf8]. *)
Fixpoint utf8_ok (bs : list nat) : bool :=
  match bs with
  | [] => true
  | b :: rest =>
      if Nat.ltb b 128 then utf8_ok rest
      else if in_range 194 223 b then
        match rest with c :: r => cont_byte c && utf8_ok r | [] => false end
      else if Nat.eqb b 224 then
        match rest with
        | c1 :: c2 :: r => in_range 160 191 c1 && cont_byte c2 && utf8_ok r
        | _ => false end
      else if in_range 225 236 b || in_range 238 239 b then
        match rest with
        | c1 :: c2 :: r => cont_byte c1 && cont_byte c2 && utf8_ok r
        | _ => false end
      else if Nat.eqb b 237 then
        match rest with
        | c1 :: c2 :: r => in_range 128 159 c1 && cont_byte c2 && utf8_ok r
        | _ => false end
      else if Nat.eqb b 240 then
        match rest with
        | c1 :: c2 :: c3 :: r =>
            in_range 144 191 c1 && cont_byte c2 && cont_byte c3 && utf8_ok r
        | _ => false end
      else if in_range 241 243 b then
        match rest with
        | c1 :: c2 :: c3 :: r =>
            cont_byte c1 && cont_byte c2 && cont_byte c3 && utf8_ok r
        | _ => false end
      else if Nat.eqb b 244 then
        match rest with
        | c1 :: c2 :: c3 :: r =>
            in_range 128 143 c1 && cont_byte c2 && cont_byte c3 && utf8_ok r
        | _ => false end
      else false
  end.

Definition utf8_valid (s : string) : bool :=
  utf8_ok (map nat_of_ascii (list_ascii_of_string s)).

(** [String::from_utf8]: a [String] is its UTF-8 bytes. *)
Definition from_utf8 (bytes : string) : M string :=
  if utf8_valid bytes then mret bytes else fail Utf8Error.

Definition newline : ascii := Ascii.ascii_of_nat 10.
Definition carriage_return : ascii := Ascii.ascii_of_nat 13.

Definition strip_cr_rev (rev_line : list ascii) : list ascii :=
  match rev_line with
  | c :: r => if Ascii.eqb c carriage_return then r else rev_line
  | [] => []
  end.

(** [str::lines]: split after each ['\n'], drop the ['\n'] and a ['\r']
    just before it; a last piece without ['\n'] is kept as it is, and an
    empty last piece is not a line.  [cur] holds the current line
    reversed.  Splitting the UTF-8 bytes at byte 10 is splitting the text
    at ['\n'], since that byte occurs in no multi-byte sequence. *)
Fixpoint lines_go (cur : list ascii) (s : string) : list string :=
  match s with
  | EmptyString =>
      match cur with
      | [] => []
      | _ => [string_of_list_ascii (rev cur)]
      end
  | String c s' =>
      if Ascii.eqb c newline
      then string_of_list_ascii (rev (strip_cr_rev cur)) :: lines_go [] s'
      else lines_go (c :: cur) s'
  end.

Definition lines (s : string) : list string := lines_go [] s.

(** [s.chars().skip(n).collect::<String>()] on a string whose first [n]
    characters are ASCII (the only use, after [starts_with("// ")]):
    dropping [n] bytes. *)
Fixpoint chars_skip (n : nat) (s : string) : string :=
  match n, s with
  | 0, _ => s
  | S n', String _ s' => chars_skip n' s'
  | S _, EmptyString => EmptyString
  end.

(** [str::starts_with] with a string pattern. *)
Definition starts_with (line pat : string) : bool := String.prefix pat line.

(** ** collect_deps (lines 39-52) *)

(** The [for line in src.lines()] loop with its [break]. *)
Fixpoint collect_lines (ls : list string) : list string :=
  match ls with
  | [] => []
  | line :: rest =>
      if negb (starts_with line "// ") then []
      else chars_skip 3 line :: collect_lines rest
  end.

Definition collect_deps (input : Path) : M (list string) :=
  bytes ← fs_read input;
  src ← from_utf8 bytes;
  mret (collect_lines (lines src)).

(** ** The manifest (lines 10-37 and 62-100) *)

Record CargoPackage := mkCargoPackage {
  package_name : string;
  package_version : string;
  edition : string
}.

Record CargoLib := mkCargoLib {
  lib_name : string;
  crate_type : list string      (* serialised as [crate-type] *)
}.

Record CargoDependency := mkCargoDependency {
  dep_version : string;
  features : list string;
  git : option string;
  branch : option string
}.

Record CargoConfig := mkCargoConfig {
  package : CargoPackage;
  lib : CargoLib;
  dependencies : gmap string CargoDependency   (* HashMap<String, _> *)
}.

Definition pyo3_git_url : string := "https://github.com/PyO3/pyo3".

(** Lines 63-81: the [pyo3] entry chosen by the [--pyo3] selector. *)
Definition pyo3_dependency (pyo3_version : string) : CargoDependency :=
  let '(version, git, branch) :=
    if String.eqb pyo3_version "github"
    then ("*", Some pyo3_git_url, Some "main")
    else (pyo3_version, None, None) in
  {| features := ["extension-module"];
     dep_version := version;
     git := git;
     branch := branch |}.

(** Lines 62-94. *)
Definition cargo_config (crate_name module_name pyo3_version : string)
  : CargoConfig :=
  {| package := {| package_name := crate_name;
                   package_version := "0.1.0";
                   edition := "2018" |};
     lib := {| lib_name := module_name; crate_type := ["cdylib"] |};
     dependencies := <["pyo3" := pyo3_dependency pyo3_version]> ∅ |}.

(** *** toml::to_string

    The toml crate is not part of this repository.  This is its rendering
    of the shapes above: tables in field order, [None] fields skipped,
    strings as basic strings, escaping quotes and backslashes (the control
    characters toml also escapes are copied as they are); none of the
    results below depends on the exact layout. *)

Definition dq : string := String (Ascii.ascii_of_nat 34) EmptyString.
Definition backslash : ascii := Ascii.ascii_of_nat 92.
Definition nl : string := String newline EmptyString.

Fixpoint toml_escape (s : string) : string :=
  match s with
  | EmptyString => EmptyString
  | String c s' =>
      if Ascii.eqb c (Ascii.ascii_of_nat 34) || Ascii.eqb c backslash
      then String backslash (String c (toml_escape s'))
      else String c (toml_escape s')
  end.

Definition toml_str (s : string) : string := dq ++ toml_escape s ++ dq.

Definition toml_array (xs : list string) : string :=
  "[" ++ String.concat ", " (map toml_str xs) ++ "]".

Definition toml_kv (k v : string) : string := k ++ " = " ++ v ++ nl.

Definition toml_opt (k : string) (v : option string) : string :=
  match v with Some s => toml_kv k (toml_str s) | None => "" end.

Definition toml_dependency (entry : string * CargoDependency) : string :=
  let '(k, d) := entry in
  nl ++ "[dependencies." ++ k ++ "]" ++ nl ++
  toml_kv "version" (toml_str (dep_version d)) ++
  toml_kv "features" (toml_array (features d)) ++
  toml_opt "git" (git d) ++
  toml_opt "branch" (branch d).

Definition toml_to_string (c : CargoConfig) : result string :=
  Ok ("[package]" ++ nl ++
      toml_kv "name" (toml_str (package_name (package c))) ++
      toml_kv "version" (toml_str (package_version (package c))) ++
      toml_kv "edition" (toml_str (edition (package c))) ++
      nl ++ "[lib]" ++ nl ++
      toml_kv "name" (toml_str (lib_name (lib c))) ++
      toml_kv "crate-type" (toml_array (crate_type (lib c))) ++
      String.concat "" (map toml_dependency (map_to_list (dependencies c)))).

(** Line 100: [config_contents.push_str(&format!("\n[dependencies]\n{}",
    deps.join("\n")))]. *)
Definition push_user_deps (config_contents : string) (deps : list string)
  : string :=
  config_contents ++ (nl ++ "[dependencies]" ++ nl ++ String.concat nl deps).

(** The raw string of lines 109-120. *)
Definition linker_config : string :=
  nl ++
  "[target.x86_64-apple-darwin]" ++ nl ++
  "rustflags = [" ++ nl ++
  "  " ++ dq ++ "-C" ++ dq ++ ", " ++ dq ++ "link-arg=-undefined" ++ dq ++ "," ++ nl ++
  "  " ++ dq ++ "-C" ++ dq ++ ", " ++ dq ++ "link-arg=dynamic_lookup" ++ dq ++ "," ++ nl ++
  "]" ++ nl ++
  nl ++
  "[target.aarch64-apple-darwin]" ++ nl ++
  "rustflags = [" ++ nl ++
  "  " ++ dq ++ "-C" ++ dq ++ ", " ++ dq ++ "link-arg=-undefined" ++ dq ++ "," ++ nl ++
  "  " ++ dq ++ "-C" ++ dq ++ ", " ++ dq ++ "link-arg=dynamic_lookup" ++ dq ++ "," ++ nl ++
  "]".

Definition lift_result {A} (r : result A) : M A := fun w => (r, w).

(** ** create_dir (lines 54-124) *)
Definition create_dir (cargo_dir input : Path) (crate_name module_name : string)
    (deps : list string) (pyo3_version : string) : M unit :=
  let config := cargo_config crate_name module_name pyo3_version in
  let src_dir := join cargo_dir "src" in
  fs_create_dir_all src_dir;;
  config_contents ← lift_result (toml_to_string config);
  let config_contents := push_user_deps config_contents deps in
  fs_write (join cargo_dir "Cargo.toml") config_contents;;
  fs_copy input (join src_dir "lib.rs");;
  let dot_cargo := join cargo_dir ".cargo" in
  fs_create_dir_all dot_cargo;;
  fs_write (join dot_cargo "config.toml") linker_config.

(** ** Project identity (lines 143-148) *)

Definition dot : ascii := Ascii.ascii_of_nat 46.
Definition hyphen : ascii := Ascii.ascii_of_nat 45.
Definition underscore : ascii := Ascii.ascii_of_nat 95.

(** [Path::file_name]: the last component, unless it is the root, [.]
    ([Component::CurDir], which [components] keeps only at the start, as in
    the path [.]) or [..]. *)
Definition file_name (p : Path) : option string :=
  match last p with
  | Some c =>
      if String.eqb c "/" || String.eqb c "." || String.eqb c ".." then None
      else Some c
  | None => None
  end.

(** Index of the last ['.'] of a file name. *)
Fixpoint last_dot_go (s : string) (i : nat) (found : option nat) : option nat :=
  match s with
  | EmptyString => found
  | String c s' =>
      last_dot_go s' (S i) (if Ascii.eqb c dot then Some i else found)
  end.

Definition last_dot (s : string) : option nat := last_dot_go s 0 None.

(** [rsplit_file_at_dot] followed by [before.or(after)]: the part before
    the last ['.'], or the whole name when it has no ['.'] or only a
    leading one. *)
Definition stem_of_name (file : string) : string :=
  if String.eqb file ".." then file
  else match last_dot file with
       | None => file
       | Some i =>
           let before := substring 0 i file in
           if String.eqb before "" then file else before
       end.

(** [Path::file_stem]. *)
Definition file_stem (p : Path) : option string :=
  match file_name p with
  | Some f => Some (stem_of_name f)
  | None => None
  end.

(** [str::replace] with a [char] pattern. *)
Fixpoint replace_char (from to : ascii) (s : string) : string :=
  match s with
  | EmptyString => EmptyString
  | String c s' =>
      String (if Ascii.eqb c from then to else c) (replace_char from to s')
  end.

(** [input.file_stem().context("No file stem")?.to_str()
    .context("to_string")?] and [crate_name.replace('-', "_")]. *)
Definition project_identity (input : Path) : M (string * string) :=
  match file_stem input with
  | None => fail (ContextError "No file stem")
  | Some stem =>
      if utf8_valid stem
      then let crate_name := stem in
           let module_name := replace_char hyphen underscore crate_name in
           mret (crate_name, module_name)
      else fail (ContextError "to_string")
  end.

(** ** run (lines 126-189) *)

(** [std::env::consts::DLL_EXTENSION] per target OS. *)
Inductive Platform := Linux | MacOS | Windows.

Definition dll_extension (os : Platform) : string :=
  match os with
  | Linux => "so"
  | MacOS => "dylib"
  | Windows => "dll"
  end.

(** The command line after clap has parsed it (the parsing itself is
    outside the model). *)
Record Matches := mkMatches {
  verbose : bool;          (* -v / --verbose *)
  release : bool;          (* --release *)
  pyo3 : option string;    (* --pyo3 <value> *)
  input_arg : Path         (* INPUT *)
}.

(** Line 127: [env::args()] panics on an argument that is not valid
    Unicode.  [run] below starts after that line, so it describes the
    runs whose arguments pass it. *)
Definition args_utf8 (m : Matches) : bool :=
  forallb utf8_valid (input_arg m) &&
  match pyo3 m with Some v => utf8_valid v | None => true end.

(** [ExitStatus::code()]: [None] when the process was killed by a
    signal. *)
Definition ExitStatus := option Z.

Definition success (st : ExitStatus) : bool :=
  match st with Some 0%Z => true | _ => false end.

(** What starting a subprocess can give: a spawn failure ([io::Error]) or
    an exit status. *)
Inductive SpawnOutcome :=
  | SpawnFailed (k : io_kind)
  | Exited (status : ExitStatus).

Definition path_display (p : Path) : string :=
  match p with
  | "/" :: r => "/" ++ String.concat "/" r
  | _ => String.concat "/" p
  end.

Definition println (s : string) : M unit :=
  fun w => (Ok tt, mkWorld (w_fs w) (w_log w) (app (w_stdout w) [s])).

(** Lines 167-170. *)
Definition build_args (is_release : bool) : list string :=
  app ["build"] (if is_release then ["--release"] else []).

Section Run.

(** [env::consts], [env::temp_dir()] and the current directory of the
    process. *)
Variable os : Platform.
Variable temp_dir : Path.
Variable cwd : Path.

(** The external programs: given program, arguments, working directory
    and filesystem, the outcome and the filesystem afterwards. *)
Variable exec : string -> list string -> Path -> FS -> SpawnOutcome * FS.

(** [Command::new(program).args(args).current_dir(dir).status()]. *)
Definition command_status (program : string) (args : list string) (dir : Path)
  : M ExitStatus := fun w =>
  let log := app (w_log w) [mkSpawn program args dir (w_fs w)] in
  match exec program args dir (w_fs w) with
  | (SpawnFailed k, fs') => (Err (IoError k), mkWorld fs' log (w_stdout w))
  | (Exited st, fs') => (Ok st, mkWorld fs' log (w_stdout w))
  end.

(** Lines 182-184. *)
Definition lib_src_path (cargo_dir : Path) (is_release : bool)
    (module_name : string) : Path :=
  let lib_name := "lib" ++ module_name ++ "." ++ dll_extension os in
  let release := if is_release then "release" else "debug" in
  join (join (join cargo_dir "target") release) lib_name.

(** Line 185: the relative path [format!("{}.so", module_name)], resolved
    against the current directory by [fs::copy]. *)
Definition lib_dst_path (module_name : string) : Path :=
  join cwd (module_name ++ ".so").

(** [input] is handed to [fs::read] and [fs::copy] as given; the kernel
    resolves it against the current directory, which [resolve] makes
    explicit. *)
Definition run (matches : Matches) : M unit :=
  let input := input_arg matches in
  '(crate_name, module_name) ← project_identity input;
  let cargo_dir := join temp_dir crate_name in
  (if verbose matches then println (path_display cargo_dir) else mret tt);;
  deps ← collect_deps (resolve cwd input);
  create_dir cargo_dir (resolve cwd input) crate_name module_name deps
    (default "*" (pyo3 matches));;
  let is_release := release matches in
  let args := build_args is_release in
  status ← command_status "cargo" args cargo_dir;
  (if negb (success status) then fail (Bail "cargo failed") else mret tt);;
  fs_copy (lib_src_path cargo_dir is_release module_name)
          (lib_dst_path module_name).

End Run.

(** ** Reading the generated files back

    Spec-side views of generated text, used to state what the files
    contain. *)

Definition dq_char : ascii := Ascii.ascii_of_nat 34.

(** The strings between double quotes, in order. *)
Fixpoint quoted_go (inside : option (list ascii)) (s : string) : list string :=
  match s with
  | EmptyString => []
  | String c s' =>
      if Ascii.eqb c dq_char then
        match inside with
        | None => quoted_go (Some []) s'
        | Some acc => string_of_list_ascii (rev acc) :: quoted_go None s'
        end
      else
        match inside with
        | None => quoted_go None s'
        | Some acc => quoted_go (Some (c :: acc)) s'
        end
  end.

Definition quoted_strings (s : string) : list string := quoted_go None s.

(** The triples of the [[target.<triple>]] table headers of a Cargo config
    file, in order. *)
Definition target_headers (s : string) : list string :=
  omap (fun l =>
          if starts_with l "[target." then Some (substring 8 (String.length l - 9) l)
          else None) (lines s).

(** The linker flags that let the extension module leave the Python
    symbols undefined until load time. *)
Definition dynamic_lookup_flags : list string :=
  ["-C"; "link-arg=-undefined"; "-C"; "link-arg=dynamic_lookup"].

(** One [[target.<triple>]] table setting [rustflags] to
    [dynamic_lookup_flags], two per line. *)
Definition target_table (triple : string) : string :=
  "[target." ++ triple ++ "]" ++ nl ++
  "rustflags = [" ++ nl ++
  "  " ++ toml_str "-C" ++ ", " ++ toml_str "link-arg=-undefined" ++ "," ++ nl ++
  "  " ++ toml_str "-C" ++ ", " ++ toml_str "link-arg=dynamic_lookup" ++ "," ++ nl ++
  "]".

(** A text made of the lines [ls], each followed by the terminator [term]. *)
Definition terminated (term : string) (ls : list string) : string :=
  fold_right (fun l acc => l ++ term ++ acc) "" ls.

Definition crlf : string := String carriage_return nl.

(** ** Concrete runs

    The scenario of the spec: [/home/foo-bar.rs] with two directives,
    built in debug mode on Linux with [/tmp] as temporary directory and
    [/home] as current directory. *)
Module Scenario.

Definition home : Path := ["/"; "home"].
Definition tmp : Path := ["/"; "tmp"].
Definition input : Path := join home "foo-bar.rs".

Definition dep_a : string := "depA = " ++ toml_str "1.0".
Definition dep_b : string := "depB = " ++ toml_str "2.0".
Definition code_line : string := "fn f() {}".
Definition late_line : string := "// late = " ++ toml_str "3.0".

Definition src_text : string :=
  "// " ++ dep_a ++ nl ++
  "// " ++ dep_b ++ nl ++
  code_line ++ nl ++
  late_line ++ nl.

Definition fs0 : FS :=
  mkFS (<[input := src_text]> ∅) {[ ["/"]; tmp; home ]}.

Definition world0 : World := mkWorld fs0 [] [].

Definition debug_matches : Matches := mkMatches false false None input.

(** A [cargo build] that succeeds and leaves [libfoo_bar.so] under
    [target/debug]. *)
Definition cargo_ok (program : string) (args : list string) (dir : Path) (fs : FS)
  : SpawnOutcome * FS :=
  let out := app dir ["target"; "debug"] in
  (Exited (Some 0%Z),
   set_file (mkFS (files fs) (list_to_set (ancestors out) ∪ dirs fs))
            (join out "libfoo_bar.so") "ELF").

(** A [cargo build] that exits with status 101. *)
Definition cargo_fails (program : string) (args : list string) (dir : Path) (fs : FS)
  : SpawnOutcome * FS :=
  (Exited (Some 101%Z), fs).

(** A [cargo build] that exits with status 0 without producing anything
    (as when the library lands in another profile directory). *)
Definition cargo_no_artifact (program : string) (args : list string) (dir : Path)
    (fs : FS) : SpawnOutcome * FS :=
  (Exited (Some 0%Z), fs).

(** The workspace of the scenario and the world [create_dir] leaves. *)
Definition workspace : Path := join tmp "foo-bar".
Definition materialized : World :=
  snd (create_dir workspace input "foo-bar" "foo_bar" [dep_a; dep_b] "*" world0).

(** The [cargo] process the debug run starts. *)
Definition debug_spawn : Spawn :=
  mkSpawn "cargo" ["build"] workspace (w_fs materialized).

(** An input that is the workspace's own manifest: [/tmp/Cargo/Cargo.toml]
    has stem [Cargo], so its workspace is [/tmp/Cargo]. *)
Definition cargo_dir_alias : Path := join tmp "Cargo".
Definition input_alias : Path := join cargo_dir_alias "Cargo.toml".
Definition fs_alias : FS :=
  mkFS (<[input_alias := "x"]> ∅) {[ ["/"]; tmp; cargo_dir_alias ]}.
Definition world_alias : World := mkWorld fs_alias [] [].

End Scenario.

(** Edge cases next to the scenario: a missing input, inputs that are all
    directives or use CRLF line endings, a path without file stem, verbose
    output, a [cargo] that cannot be started, and a workspace path taken by
    a regular file. *)
Module Edge.
Import Scenario.
Definition missing : Path := join home "missing.rs".
Definition deps_only_text : string := "// " ++ dep_a ++ nl ++ "// " ++ dep_b.
Definition world_deps_only : World :=
  mkWorld (mkFS (<[input := deps_only_text]> ∅) {[ ["/"]; tmp; home ]}) [] [].
Definition crlf_lines : list string := ["// " ++ dep_a; code_line; late_line].
Definition world_crlf : World :=
  mkWorld (mkFS (<[input := terminated crlf crlf_lines]> ∅) {[ ["/"]; tmp; home ]}) [] [].
Definition root_matches : Matches := mkMatches false false None ["/"].
Definition missing_matches : Matches := mkMatches false false None missing.
Definition verbose_matches : Matches := mkMatches true false None input.
Definition cargo_not_installed (program : string) (args : list string) (dir : Path)
    (fs : FS) : SpawnOutcome * FS :=
  (SpawnFailed NotFound, fs).
Definition world_blocked : World :=
  mkWorld (mkFS (<[workspace := "x"]> ∅) {[ ["/"]; tmp ]}) [] [].
End Edge.

(** The input given as the relative path [Cargo.toml] while the current
    directory is [/tmp/Cargo]: it resolves to [/tmp/Cargo/Cargo.toml], the
    manifest of its own workspace. *)
Module Relative.
Import Scenario.
Definition matches : Matches := mkMatches false false None ["Cargo.toml"].
Definition spawn : Spawn :=
  mkSpawn "cargo" ["build"] cargo_dir_alias
    (w_fs (snd (create_dir cargo_dir_alias input_alias "Cargo" "Cargo" [] "*"
                  world_alias))).
End Relative.

(** ** Directive parsing *)

(** A line that passes the [starts_with("// ")] test is [// ] followed by
    what [chars().skip(3)] keeps. *)
Lemma starts_with_directive (line : string) :
  starts_with line "// " = true -> line = "// " ++ chars_skip 3 line.
Proof.
  unfold starts_with. intros H.
  destruct line as [|a [|b [|c s]]]; cbn -[ascii_dec] in H; try discriminate;
  repeat match type of H with context [ascii_dec ?x ?y] =>
    destruct (ascii_dec x y) end;
  try discriminate; subst; reflexivity.
Qed.

(** The loop keeps the directive run and stops at the first other line. *)
Lemma collect_lines_prefix (pre : list string) (l : string) (rest : list string) :
  Forall (fun x => starts_with x "// " = true) pre ->
  starts_with l "// " = false ->
  collect_lines (app pre (l :: rest)) = map (chars_skip 3) pre.
Proof.
  intros Hpre Hl. induction Hpre as [|x pre Hx Hpre IH]; simpl.
  - rewrite Hl. reflexivity.
  - rewrite Hx. simpl. rewrite IH. reflexivity.
Qed.

(** C1. When the text of the input decodes and its lines are a run [pre]
    of lines starting with [// ] followed by a line [l] that does not,
    [collect_deps] returns one dependency per line of [pre], in order, each
    the line without its first three characters; nothing at or after [l]
    contributes, whatever [rest] holds. *)
Theorem collect_deps_leading_directives (w : World) (input : Path) (src : string)
    (pre : list string) (l : string) (rest : list string) :
  files (w_fs w) !! input = Some src ->
  utf8_valid src = true ->
  lines src = app pre (l :: rest) ->
  Forall (fun x => starts_with x "// " = true) pre ->
  starts_with l "// " = false ->
  exists deps, collect_deps input w = (Ok deps, w) /\
    deps = map (chars_skip 3) pre /\
    Forall2 (fun dep line => line = "// " ++ dep) deps pre.
Proof.
  intros Hf Hu Hl Hpre Hnl. exists (map (chars_skip 3) pre).
  unfold collect_deps, mbind, M_bind, fs_read, fs_read_fn, from_utf8.
  rewrite Hf, Hu. unfold mret, M_ret. rewrite Hl, collect_lines_prefix by assumption.
  split; [reflexivity|]. split; [reflexivity|].
  clear Hl Hf. induction Hpre as [|x pre Hx Hpre IH]; simpl; constructor; auto.
  apply starts_with_directive; assumption.
Qed.

(** ** The materialised workspace *)

(** What a successful [create_dir] leaves in the file table: the manifest,
    then the copy of the input (read after the manifest was written), then
    the linker configuration. *)
Lemma create_dir_ok_files (cargo_dir input : Path) (crate_name module_name : string)
    (deps : list string) (sel : string) (w w' : World) :
  create_dir cargo_dir input crate_name module_name deps sel w = (Ok tt, w') ->
  exists toml data,
    toml_to_string (cargo_config crate_name module_name sel) = Ok toml /\
    <[join cargo_dir "Cargo.toml" := push_user_deps toml deps]> (files (w_fs w))
      !! input = Some data /\
    files (w_fs w') =
      <[join (join cargo_dir ".cargo") "config.toml" := linker_config]>
      (<[join (join cargo_dir "src") "lib.rs" :=
           if bool_decide (input = join (join cargo_dir "src") "lib.rs")
           then "" else data]>
       (<[join cargo_dir "Cargo.toml" := push_user_deps toml deps]>
          (files (w_fs w)))).
Proof.
  intros H.
  unfold create_dir, mbind, M_bind, fs_create_dir_all, fs_write, fs_copy, lift_fs,
    lift_result, fs_create_dir_all_fn, fs_write_fn, fs_copy_fn, set_file in H.
  destruct w as [fs0 log0 out0]; cbn [files w_fs] in *.
  repeat (case_match; cbn [files dirs w_fs w_log w_stdout] in *; simplify_eq).
  all: eexists _, _; split; [reflexivity|]; split; [eassumption|]; cbn; reflexivity.
Qed.

(** [create_dir] starts no process and prints nothing. *)
Lemma create_dir_log (cargo_dir input : Path) (crate_name module_name : string)
    (deps : list string) (sel : string) (w : World) r w' :
  create_dir cargo_dir input crate_name module_name deps sel w = (r, w') ->
  w_log w' = w_log w /\ w_stdout w' = w_stdout w.
Proof.
  intros H.
  unfold create_dir, mbind, M_bind, fs_create_dir_all, fs_write, fs_copy, lift_fs,
    lift_result in H.
  destruct w as [fs0 log0 out0].
  repeat (case_match; cbn [files dirs w_fs w_log w_stdout] in *; simplify_eq); auto.
Qed.

(** ** The stages of [run]

    Either [run] fails before starting any process, or it materialises the
    workspace, starts [cargo] exactly once, and then fails on the build or
    ends with the copy of the artifact. *)
Lemma run_stages os temp_dir cwd exec (m : Matches) (w : World) r w' :
  run os temp_dir cwd exec m w = (r, w') ->
  (w_log w' = w_log w /\ exists e, r = Err e) \/
  exists crate_name deps wv w1 outcome fs1,
    let cargo_dir := join temp_dir crate_name in
    let module_name := replace_char hyphen underscore crate_name in
    let sp := mkSpawn "cargo" (build_args (release m)) cargo_dir (w_fs w1) in
    file_stem (input_arg m) = Some crate_name /\
    w_fs wv = w_fs w /\ w_log wv = w_log w /\
    collect_deps (resolve cwd (input_arg m)) wv = (Ok deps, wv) /\
    create_dir cargo_dir (resolve cwd (input_arg m)) crate_name module_name deps
      (default "*" (pyo3 m)) wv = (Ok tt, w1) /\
    w_log w1 = w_log w /\
    exec "cargo" (build_args (release m)) cargo_dir (w_fs w1) = (outcome, fs1) /\
    w_log w' = app (w_log w) [sp] /\
    match outcome with
    | SpawnFailed k => r = Err (IoError k) /\ w_fs w' = fs1
    | Exited st =>
        if success st then
          match fs_copy_fn fs1 (lib_src_path os cargo_dir (release m) module_name)
                  (lib_dst_path cwd module_name) with
          | Ok fs2 => r = Ok tt /\ w_fs w' = fs2
          | Err e => r = Err e /\ w_fs w' = fs1
          end
        else r = Err (Bail "cargo failed") /\ w_fs w' = fs1
    end.
Proof.
  intros H.
  unfold run, mbind, M_bind in H.
  destruct (project_identity (input_arg m) w) as [[[c mo]|e] wp] eqn:Hp;
    [|left; cbn in H; unfold project_identity in Hp; repeat case_match;
      unfold fail in Hp; simplify_eq; (split; [reflexivity|eauto])].
  unfold project_identity in Hp.
  destruct (file_stem (input_arg m)) as [stem|] eqn:Hs; [|discriminate].
  destruct (utf8_valid stem); [|discriminate].
  unfold mret, M_ret in Hp. injection Hp as Hc1 Hm1 Hw1; subst c mo wp.
  set (wv := (if verbose m then println (path_display (join temp_dir stem)) else mret tt) w).
  assert (Hwv : exists wv', wv = (Ok tt, wv') /\ w_fs wv' = w_fs w /\ w_log wv' = w_log w).
  { subst wv. destruct (verbose m); eexists; repeat split; reflexivity. }
  destruct Hwv as [wv' [Hwv [Hfs Hlog]]]. fold wv in H. rewrite Hwv in H.
  destruct (collect_deps (resolve cwd (input_arg m)) wv') as [[deps|e] wc] eqn:Hc.
  2:{ left. assert (wc = wv') as ->.
      { revert Hc. unfold collect_deps, mbind, M_bind, fs_read, from_utf8, mret, M_ret, fail.
        repeat case_match; intros; simplify_eq; reflexivity. }
      simplify_eq. eauto. }
  assert (wc = wv') as ->.
  { revert Hc. unfold collect_deps, mbind, M_bind, fs_read, from_utf8, mret, M_ret, fail.
    repeat case_match; intros; simplify_eq; reflexivity. }
  destruct (create_dir (join temp_dir stem) (resolve cwd (input_arg m)) stem
              (replace_char hyphen underscore stem) deps (default "*" (pyo3 m)) wv')
    as [[[]|e] w1] eqn:Hcd;
    pose proof (create_dir_log _ _ _ _ _ _ _ _ _ Hcd) as [Hl1 _].
  2:{ left. simplify_eq. split; [congruence|eauto]. }
  right. exists stem, deps, wv', w1.
  unfold command_status in H.
  destruct (exec "cargo" (build_args (release m)) (join temp_dir stem) (w_fs w1))
    as [outcome fs1] eqn:He.
  exists outcome, fs1. cbn zeta.
  do 7 (split; [first [assumption | reflexivity | congruence]|]).
  destruct outcome as [k|st]; simplify_eq; cbn.
  - split; [congruence|auto].
  - destruct (success st); cbn in H.
    + unfold fs_copy, lift_fs in H. cbn in H.
      destruct (fs_copy_fn fs1 _ _); simplify_eq; cbn; rewrite ?Hl1, ?Hlog; auto.
    + unfold fail in H. simplify_eq. cbn. rewrite ?Hl1, ?Hlog. auto.
Qed.

(** The three files [create_dir] writes are distinct paths. *)
Lemma join_length (p : Path) (c : string) : length (join p c) = S (length p).
Proof. unfold join. rewrite length_app. simpl. lia. Qed.

Lemma cargo_toml_ne_lib_rs (d : Path) :
  join d "Cargo.toml" <> join (join d "src") "lib.rs".
Proof. intros H. apply (f_equal length) in H. rewrite !join_length in H. lia. Qed.

Lemma cargo_toml_ne_config (d : Path) :
  join d "Cargo.toml" <> join (join d ".cargo") "config.toml".
Proof. intros H. apply (f_equal length) in H. rewrite !join_length in H. lia. Qed.

Lemma lib_rs_ne_config (d : Path) :
  join (join d "src") "lib.rs" <> join (join d ".cargo") "config.toml".
Proof.
  unfold join. intros H. apply app_inj_tail in H as [H _].
  apply app_inj_tail in H as [_ H]. discriminate.
Qed.

(** Lengths and characters of strings. *)
Lemma string_length_append (s1 s2 : string) :
  String.length (s1 ++ s2) = String.length s1 + String.length s2.
Proof. induction s1; simpl; auto. Qed.

Lemma replace_char_get (from to : ascii) (s : string) (i : nat) :
  String.get i (replace_char from to s) =
  option_map (fun c => if Ascii.eqb c from then to else c) (String.get i s).
Proof.
  revert i. induction s as [|c s IH]; intros [|i]; simpl; auto.
Qed.

Lemma replace_char_length (from to : ascii) (s : string) :
  String.length (replace_char from to s) = String.length s.
Proof. induction s; simpl; auto. Qed.

(** ** The claims *)

(** C2. The dependency table holds exactly the [pyo3] entry: for the
    selector ["github"] it has version [*], the PyO3 repository as [git]
    and [main] as [branch]; for every other selector it has the selector
    as version and neither [git] nor [branch]. *)
Theorem pyo3_entry_by_selector (crate_name module_name sel : string) :
  map_to_list (dependencies (cargo_config crate_name module_name sel)) =
  [("pyo3",
    if String.eqb sel "github"
    then mkCargoDependency "*" ["extension-module"]
           (Some "https://github.com/PyO3/pyo3") (Some "main")
    else mkCargoDependency sel ["extension-module"] None None)].
Proof.
  unfold cargo_config, pyo3_dependency. cbn [dependencies].
  rewrite insert_empty, map_to_list_singleton.
  destruct (String.eqb sel "github"); reflexivity.
Qed.

(** C3. After [create_dir] succeeds, [Cargo.toml] holds the TOML text of
    the structured configuration, then a second [[dependencies]] heading,
    then the user's dependency strings joined by newlines, unchanged and in
    order. *)
Theorem create_dir_manifest_text (cargo_dir input : Path)
    (crate_name module_name : string) (deps : list string) (sel : string)
    (w w' : World) :
  create_dir cargo_dir input crate_name module_name deps sel w = (Ok tt, w') ->
  exists toml,
    toml_to_string (cargo_config crate_name module_name sel) = Ok toml /\
    files (w_fs w') !! join cargo_dir "Cargo.toml" =
      Some (toml ++ nl ++ "[dependencies]" ++ nl ++ String.concat nl deps).
Proof.
  intros H. destruct (create_dir_ok_files _ _ _ _ _ _ _ _ H)
    as (toml & data & Ht & _ & Hf).
  exists toml. split; [exact Ht|]. rewrite Hf.
  rewrite lookup_insert_ne by (apply not_eq_sym, cargo_toml_ne_config).
  rewrite lookup_insert_ne by (apply not_eq_sym, cargo_toml_ne_lib_rs).
  rewrite lookup_insert_eq. reflexivity.
Qed.

(** C7 (amended). Paths are compared in their [canonical] form (absolute,
    after resolution against the current directory, as [run] hands the
    input over).  When the input is neither the workspace's [Cargo.toml]
    nor its [src/lib.rs], after [create_dir] succeeds [src/lib.rs] holds
    exactly the bytes the input had before.  When the input is the
    workspace's [Cargo.toml], the manifest is written over it before the
    copy and [src/lib.rs] holds the generated manifest. *)
Theorem create_dir_copies_input (cargo_dir input : Path)
    (crate_name module_name : string) (deps : list string) (sel : string)
    (w w' : World) (data : string) :
  canonical cargo_dir = true ->
  canonical input = true ->
  files (w_fs w) !! input = Some data ->
  create_dir cargo_dir input crate_name module_name deps sel w = (Ok tt, w') ->
  (input <> join cargo_dir "Cargo.toml" ->
   input <> join (join cargo_dir "src") "lib.rs" ->
   files (w_fs w') !! join (join cargo_dir "src") "lib.rs" = Some data) /\
  (input = join cargo_dir "Cargo.toml" ->
   exists toml,
     toml_to_string (cargo_config crate_name module_name sel) = Ok toml /\
     files (w_fs w') !! join (join cargo_dir "src") "lib.rs" =
       Some (push_user_deps toml deps)).
Proof.
  intros _ _ Hin H. destruct (create_dir_ok_files _ _ _ _ _ _ _ _ H)
    as (toml & data' & Ht & Hd & Hf).
  rewrite Hf, lookup_insert_ne by (apply not_eq_sym, lib_rs_ne_config).
  rewrite lookup_insert_eq. split.
  - intros Hne1 Hne2.
    rewrite lookup_insert_ne in Hd by (apply not_eq_sym; exact Hne1).
    rewrite Hin in Hd. injection Hd as <-.
    rewrite bool_decide_false by exact Hne2. reflexivity.
  - intros Heq. exists toml. split; [exact Ht|].
    rewrite Heq, lookup_insert_eq in Hd. injection Hd as <-.
    rewrite Heq, bool_decide_false by exact (cargo_toml_ne_lib_rs _). reflexivity.
Qed.

(** C7 (counterexample). The input [/tmp/Cargo/Cargo.toml] is the
    manifest of its own workspace [/tmp/Cargo]: [create_dir] overwrites it
    with the generated manifest before copying it, so [src/lib.rs] does not
    hold the input's original bytes. *)
Lemma create_dir_input_is_manifest :
  create_dir Scenario.cargo_dir_alias Scenario.input_alias "Cargo" "Cargo" [] "*"
    Scenario.world_alias =
    (Ok tt, snd (create_dir Scenario.cargo_dir_alias Scenario.input_alias
                   "Cargo" "Cargo" [] "*" Scenario.world_alias)) /\
  files (w_fs Scenario.world_alias) !! Scenario.input_alias = Some "x" /\
  files (w_fs (snd (create_dir Scenario.cargo_dir_alias Scenario.input_alias
                      "Cargo" "Cargo" [] "*" Scenario.world_alias)))
    !! join (join Scenario.cargo_dir_alias "src") "lib.rs" <> Some "x".
Proof.
  split; [vm_compute; reflexivity|]. split; [vm_compute; reflexivity|].
  vm_compute. congruence.
Qed.

(** C9. After [create_dir] succeeds, [.cargo/config.toml] holds the fixed
    text [linker_config], whatever the inputs: two [[target.<triple>]]
    tables, for [x86_64-apple-darwin] and [aarch64-apple-darwin], each
    setting [rustflags] to [-C link-arg=-undefined -C
    link-arg=dynamic_lookup]. *)
Theorem create_dir_linker_config (cargo_dir input : Path)
    (crate_name module_name : string) (deps : list string) (sel : string)
    (w w' : World) :
  create_dir cargo_dir input crate_name module_name deps sel w = (Ok tt, w') ->
  files (w_fs w') !! join (join cargo_dir ".cargo") "config.toml" = Some linker_config /\
  linker_config = nl ++ target_table "x86_64-apple-darwin" ++ nl ++ nl ++
                  target_table "aarch64-apple-darwin" /\
  target_headers linker_config = ["x86_64-apple-darwin"; "aarch64-apple-darwin"] /\
  Forall (fun t => quoted_strings (target_table t) = dynamic_lookup_flags)
    ["x86_64-apple-darwin"; "aarch64-apple-darwin"] /\
  String.concat " " dynamic_lookup_flags =
    "-C link-arg=-undefined -C link-arg=dynamic_lookup".
Proof.
  intros H. destruct (create_dir_ok_files _ _ _ _ _ _ _ _ H)
    as (toml & data & _ & _ & Hf).
  split; [rewrite Hf; apply lookup_insert_eq|].
  split; [reflexivity|]. split; [vm_compute; reflexivity|].
  split; [repeat constructor|reflexivity].
Qed.

(** C5. The module name is the file stem with every [-] replaced by [_]
    and every other character kept. *)
Theorem module_name_replaces_hyphens (input : Path) (w w' : World)
    (crate_name module_name : string) :
  project_identity input w = (Ok (crate_name, module_name), w') ->
  file_stem input = Some crate_name /\
  String.length module_name = String.length crate_name /\
  forall i ch, String.get i crate_name = Some ch ->
    String.get i module_name = Some (if Ascii.eqb ch hyphen then underscore else ch).
Proof.
  unfold project_identity. intros H.
  destruct (file_stem input) as [stem|]; [|discriminate].
  destruct (utf8_valid stem); [|discriminate].
  injection H as <- <- _.
  split; [reflexivity|]. split; [apply replace_char_length|].
  intros i ch Hi. rewrite replace_char_get, Hi. reflexivity.
Qed.

(** The artifact path of lines 182-184 and its destination never coincide:
    the file names differ in length. *)
Lemma lib_src_ne_dst (os : Platform) (cwd cargo_dir : Path) (rel : bool) (mo : string) :
  lib_src_path os cargo_dir rel mo <> lib_dst_path cwd mo.
Proof.
  unfold lib_src_path, lib_dst_path, join. intros H.
  apply app_inj_tail in H as [_ H]. apply (f_equal String.length) in H.
  rewrite !string_length_append in H. simpl in H. lia.
Qed.

(** The artifact path of lines 182-184 spelled out. *)
Lemma lib_src_path_eq (os : Platform) (cargo_dir : Path) (rel : bool) (mo : string) :
  lib_src_path os cargo_dir rel mo =
  app cargo_dir ["target"; if rel then "release" else "debug";
                 "lib" ++ mo ++ "." ++ dll_extension os].
Proof. unfold lib_src_path, join. rewrite <- !app_assoc. reflexivity. Qed.

(** C4. When [run] succeeds, it has copied
    [<workspace>/target/<debug|release>/lib<module>.<DLL_EXTENSION>], as
    left by the successful [cargo] build, to [<module>.so] in the current
    directory, whatever the platform's extension. *)
Theorem run_copies_artifact (os : Platform) (temp_dir cwd : Path) exec
    (m : Matches) (w w' : World) :
  run os temp_dir cwd exec m w = (Ok tt, w') ->
  exists crate_name fs0 fs1 data,
    let module_name := replace_char hyphen underscore crate_name in
    let cargo_dir := join temp_dir crate_name in
    let src := app cargo_dir
                 ["target"; if release m then "release" else "debug";
                  "lib" ++ module_name ++ "." ++ dll_extension os] in
    let dst := app cwd [module_name ++ ".so"] in
    file_stem (input_arg m) = Some crate_name /\
    exec "cargo" (build_args (release m)) cargo_dir fs0 = (Exited (Some 0%Z), fs1) /\
    files fs1 !! src = Some data /\
    w_fs w' = mkFS (<[dst := data]> (files fs1)) (dirs fs1).
Proof.
  intros H. destruct (run_stages _ _ _ _ _ _ _ _ H) as [[_ [e He]]|Hs]; [discriminate|].
  destruct Hs as (c & deps & wv & w1 & outcome & fs1 & Hs). cbn zeta in Hs.
  destruct Hs as (Hstem & _ & _ & _ & _ & _ & Hexec & _ & Hout).
  destruct outcome as [k|st]; [destruct Hout; discriminate|].
  destruct (success st) eqn:Hst; [|destruct Hout; discriminate].
  destruct st as [[|p|p]|]; try discriminate.
  pose proof (lib_src_ne_dst os cwd (join temp_dir c) (release m)
                (replace_char hyphen underscore c)) as Hne.
  revert Hout Hne. unfold fs_copy_fn.
  destruct (files fs1 !! _) as [data|] eqn:Hsrc.
  2:{ destruct (is_dir fs1 _); intros [? ?]; discriminate. }
  destruct (is_dir fs1 (lib_dst_path _ _)); [intros [? ?]; discriminate|].
  destruct (negb (is_dir fs1 (parent _))); [intros [? ?]; discriminate|].
  intros Hout Hne. rewrite bool_decide_false in Hout by exact Hne.
  destruct Hout as [_ Hw].
  exists c, (w_fs w1), fs1, data. cbn zeta.
  split; [exact Hstem|]. split; [exact Hexec|].
  split; [rewrite <- lib_src_path_eq; exact Hsrc|]. rewrite Hw. reflexivity.
Qed.

(** C6. [run] starts at most one process: [cargo] with [build], plus
    [--release] when requested, in the workspace.  When that process exits
    with a non-zero code the run fails with [bail!("cargo failed")] and the
    filesystem is the one the build left: no copy happens. *)
Theorem run_build_invocation (os : Platform) (temp_dir cwd : Path) exec
    (m : Matches) (w : World) r w' :
  run os temp_dir cwd exec m w = (r, w') ->
  exists spawned, w_log w' = app (w_log w) spawned /\
    ((spawned = [] /\ exists e, r = Err e) \/
     exists crate_name sp,
       spawned = [sp] /\
       file_stem (input_arg m) = Some crate_name /\
       sp_program sp = "cargo" /\
       sp_args sp = (if release m then ["build"; "--release"] else ["build"]) /\
       sp_cwd sp = join temp_dir crate_name /\
       forall code fs1,
         exec "cargo" (sp_args sp) (sp_cwd sp) (sp_fs sp) = (Exited (Some code), fs1) ->
         code <> 0%Z ->
         r = Err (Bail "cargo failed") /\ w_fs w' = fs1).
Proof.
  intros H. destruct (run_stages _ _ _ _ _ _ _ _ H) as [[Hl He]|Hs].
  - exists []. rewrite app_nil_r. auto.
  - destruct Hs as (c & deps & wv & w1 & outcome & fs1 & Hs). cbn zeta in Hs.
    destruct Hs as (Hstem & _ & _ & _ & _ & _ & Hexec & Hlog & Hout).
    eexists. split; [exact Hlog|]. right.
    exists c, (mkSpawn "cargo" (build_args (release m)) (join temp_dir c) (w_fs w1)).
    split; [reflexivity|]. split; [exact Hstem|]. cbn [sp_program sp_args sp_cwd sp_fs].
    split; [reflexivity|]. split; [destruct (release m); reflexivity|].
    split; [reflexivity|].
    intros code fs1' Hexec' Hcode. rewrite Hexec in Hexec'. injection Hexec' as -> <-.
    destruct code; [contradiction|exact Hout|exact Hout].
Qed.

(** C8 (amended). When the [cargo] build exits with status 0 and nothing
    exists at the artifact path, the run fails with the [NotFound]
    [io::Error] of [fs::copy]; its message is the OS text, without the
    path. *)
Theorem run_missing_artifact (os : Platform) (temp_dir cwd : Path) exec
    (m : Matches) (w : World) r w' (crate_name : string) :
  run os temp_dir cwd exec m w = (r, w') ->
  file_stem (input_arg m) = Some crate_name ->
  forall sp fs1,
    w_log w' = app (w_log w) [sp] ->
    exec "cargo" (sp_args sp) (sp_cwd sp) (sp_fs sp) = (Exited (Some 0%Z), fs1) ->
    let src := app (join temp_dir crate_name)
                 ["target"; if release m then "release" else "debug";
                  "lib" ++ replace_char hyphen underscore crate_name ++ "." ++
                  dll_extension os] in
    files fs1 !! src = None ->
    src ∉ dirs fs1 ->
    r = Err (IoError NotFound) /\
    error_message (IoError NotFound) = "No such file or directory (os error 2)".
Proof.
  intros H Hstem sp fs1 Hsp Hx src Hnone Hndir. subst src.
  destruct (run_stages _ _ _ _ _ _ _ _ H) as [[Hl _]|Hs].
  - rewrite Hl in Hsp. apply (f_equal length) in Hsp.
    rewrite length_app in Hsp. simpl in Hsp. lia.
  - destruct Hs as (c & deps & wv & w1 & outcome & fs1' & Hs). cbn zeta in Hs.
    destruct Hs as (Hstem' & _ & _ & _ & _ & _ & Hexec & Hlog & Hout).
    rewrite Hstem in Hstem'. injection Hstem' as <-.
    rewrite Hlog in Hsp. apply app_inv_head in Hsp. injection Hsp as <-.
    cbn [sp_args sp_cwd sp_fs] in Hx. rewrite Hexec in Hx. injection Hx as -> ->.
    cbn [success] in Hout. revert Hout. unfold fs_copy_fn. rewrite lib_src_path_eq.
    unfold Path in *. rewrite Hnone.
    unfold is_dir. rewrite bool_decide_false by exact Hndir. intros [-> _].
    split; reflexivity.
Qed.

(** C8 (counterexample). In the debug scenario with a build that produces
    nothing, the run fails with an error whose message names neither the
    missing artifact's path nor its file name. *)
Lemma run_missing_artifact_error_omits_path :
  run Linux Scenario.tmp Scenario.home Scenario.cargo_no_artifact
      Scenario.debug_matches Scenario.world0 =
    (Err (IoError NotFound),
     snd (run Linux Scenario.tmp Scenario.home Scenario.cargo_no_artifact
              Scenario.debug_matches Scenario.world0)) /\
  String.index 0 "libfoo_bar.so" (error_message (IoError NotFound)) = None /\
  String.index 0
    (path_display (lib_src_path Linux (join Scenario.tmp "foo-bar") false "foo_bar"))
    (error_message (IoError NotFound)) = None.
Proof.
  split; [vm_compute; reflexivity|]. split; vm_compute; reflexivity.
Qed.

(** C10. Without [--pyo3], the manifest given to [cargo] is the one for
    the selector [*]: its [pyo3] entry has version [*] and neither [git]
    nor [branch]. *)
Theorem run_default_pyo3_selector (os : Platform) (temp_dir cwd : Path) exec
    (m : Matches) (w : World) r w' :
  pyo3 m = None ->
  run os temp_dir cwd exec m w = (r, w') ->
  forall sp, w_log w' = app (w_log w) [sp] ->
  exists crate_name deps toml,
    let module_name := replace_char hyphen underscore crate_name in
    file_stem (input_arg m) = Some crate_name /\
    toml_to_string (cargo_config crate_name module_name "*") = Ok toml /\
    files (sp_fs sp) !! join (join temp_dir crate_name) "Cargo.toml" =
      Some (push_user_deps toml deps) /\
    map_to_list (dependencies (cargo_config crate_name module_name "*")) =
      [("pyo3", mkCargoDependency "*" ["extension-module"] None None)].
Proof.
  intros Hp H sp Hsp. destruct (run_stages _ _ _ _ _ _ _ _ H) as [[Hl _]|Hs].
  - rewrite Hl in Hsp. apply (f_equal length) in Hsp.
    rewrite length_app in Hsp. simpl in Hsp. lia.
  - destruct Hs as (c & deps & wv & w1 & outcome & fs1 & Hs). cbn zeta in Hs.
    destruct Hs as (Hstem & _ & _ & _ & Hcd & _ & _ & Hlog & _).
    rewrite Hp in Hcd. cbn [default] in Hcd.
    rewrite Hlog in Hsp. apply app_inv_head in Hsp. injection Hsp as <-.
    destruct (create_dir_ok_files _ _ _ _ _ _ _ _ Hcd) as (toml & data & Ht & _ & Hf).
    exists c, deps, toml. cbn zeta.
    split; [exact Hstem|]. split; [exact Ht|]. split.
    + cbn [sp_fs]. rewrite Hf.
      rewrite lookup_insert_ne by (apply not_eq_sym, cargo_toml_ne_config).
      rewrite lookup_insert_ne by (apply not_eq_sym, cargo_toml_ne_lib_rs).
      apply lookup_insert_eq.
    + unfold cargo_config, pyo3_dependency. cbn [dependencies].
      rewrite insert_empty, map_to_list_singleton. reflexivity.
Qed.

(** ** Witnesses: the theorems above applied to the concrete scenario *)

Lemma collect_deps_leading_directives_witness :
  exists deps,
    collect_deps Scenario.input Scenario.world0 = (Ok deps, Scenario.world0) /\
    deps = map (chars_skip 3) ["// " ++ Scenario.dep_a; "// " ++ Scenario.dep_b] /\
    Forall2 (fun dep line => line = "// " ++ dep) deps
      ["// " ++ Scenario.dep_a; "// " ++ Scenario.dep_b].
Proof.
  apply (collect_deps_leading_directives Scenario.world0 Scenario.input
           Scenario.src_text ["// " ++ Scenario.dep_a; "// " ++ Scenario.dep_b]
           Scenario.code_line [Scenario.late_line]).
  - vm_compute. reflexivity.
  - vm_compute. reflexivity.
  - vm_compute. reflexivity.
  - constructor; [vm_compute; reflexivity|].
    constructor; [vm_compute; reflexivity|constructor].
  - vm_compute. reflexivity.
Defined.

Lemma create_dir_manifest_text_witness :
  exists toml,
    toml_to_string (cargo_config "foo-bar" "foo_bar" "*") = Ok toml /\
    files (w_fs Scenario.materialized) !! join Scenario.workspace "Cargo.toml" =
      Some (toml ++ nl ++ "[dependencies]" ++ nl ++
            String.concat nl [Scenario.dep_a; Scenario.dep_b]).
Proof.
  apply (create_dir_manifest_text Scenario.workspace Scenario.input "foo-bar" "foo_bar"
           [Scenario.dep_a; Scenario.dep_b] "*" Scenario.world0).
  vm_compute. reflexivity.
Defined.

Lemma create_dir_copies_input_witness :
  files (w_fs Scenario.materialized) !! join (join Scenario.workspace "src") "lib.rs" =
    Some Scenario.src_text /\
  exists toml,
    toml_to_string (cargo_config "Cargo" "Cargo" "*") = Ok toml /\
    files (w_fs (snd (create_dir Scenario.cargo_dir_alias Scenario.input_alias
                        "Cargo" "Cargo" [] "*" Scenario.world_alias)))
      !! join (join Scenario.cargo_dir_alias "src") "lib.rs" =
      Some (push_user_deps toml []).
Proof.
  split.
  - refine (proj1 (create_dir_copies_input Scenario.workspace Scenario.input
                     "foo-bar" "foo_bar" [Scenario.dep_a; Scenario.dep_b] "*"
                     Scenario.world0 Scenario.materialized Scenario.src_text
                     _ _ _ _) _ _).
    all: vm_compute; first [reflexivity | congruence].
  - refine (proj2 (create_dir_copies_input Scenario.cargo_dir_alias Scenario.input_alias
                     "Cargo" "Cargo" [] "*" Scenario.world_alias
                     (snd (create_dir Scenario.cargo_dir_alias Scenario.input_alias
                             "Cargo" "Cargo" [] "*" Scenario.world_alias))
                     "x" _ _ _ _) _).
    all: vm_compute; reflexivity.
Defined.

Lemma create_dir_linker_config_witness :
  files (w_fs Scenario.materialized) !! join (join Scenario.workspace ".cargo") "config.toml"
    = Some linker_config /\
  linker_config = nl ++ target_table "x86_64-apple-darwin" ++ nl ++ nl ++
                  target_table "aarch64-apple-darwin" /\
  target_headers linker_config = ["x86_64-apple-darwin"; "aarch64-apple-darwin"] /\
  Forall (fun t => quoted_strings (target_table t) = dynamic_lookup_flags)
    ["x86_64-apple-darwin"; "aarch64-apple-darwin"] /\
  String.concat " " dynamic_lookup_flags =
    "-C link-arg=-undefined -C link-arg=dynamic_lookup".
Proof.
  apply (create_dir_linker_config Scenario.workspace Scenario.input "foo-bar" "foo_bar"
           [Scenario.dep_a; Scenario.dep_b] "*" Scenario.world0).
  vm_compute. reflexivity.
Defined.

Lemma module_name_replaces_hyphens_witness :
  file_stem Scenario.input = Some "foo-bar" /\
  String.length "foo_bar" = String.length "foo-bar" /\
  forall i ch, String.get i "foo-bar" = Some ch ->
    String.get i "foo_bar" = Some (if Ascii.eqb ch hyphen then underscore else ch).
Proof.
  apply (module_name_replaces_hyphens Scenario.input Scenario.world0 Scenario.world0).
  vm_compute. reflexivity.
Defined.

Lemma run_copies_artifact_witness :
  exists crate_name fs0 fs1 data,
    let module_name := replace_char hyphen underscore crate_name in
    let cargo_dir := join Scenario.tmp crate_name in
    let src := app cargo_dir
                 ["target"; "debug"; "lib" ++ module_name ++ "." ++ dll_extension Linux] in
    let dst := app Scenario.home [module_name ++ ".so"] in
    file_stem Scenario.input = Some crate_name /\
    Scenario.cargo_ok "cargo" (build_args false) cargo_dir fs0 =
      (Exited (Some 0%Z), fs1) /\
    files fs1 !! src = Some data /\
    w_fs (snd (run Linux Scenario.tmp Scenario.home Scenario.cargo_ok
                   Scenario.debug_matches Scenario.world0)) =
      mkFS (<[dst := data]> (files fs1)) (dirs fs1).
Proof.
  apply (run_copies_artifact Linux Scenario.tmp Scenario.home Scenario.cargo_ok
           Scenario.debug_matches Scenario.world0).
  vm_compute. reflexivity.
Defined.

Lemma run_build_invocation_witness :
  let R := run Linux Scenario.tmp Scenario.home Scenario.cargo_fails
               Scenario.debug_matches Scenario.world0 in
  exists spawned, w_log (snd R) = app (w_log Scenario.world0) spawned /\
    ((spawned = [] /\ exists e, fst R = Err e) \/
     exists crate_name sp,
       spawned = [sp] /\
       file_stem Scenario.input = Some crate_name /\
       sp_program sp = "cargo" /\
       sp_args sp = ["build"] /\
       sp_cwd sp = join Scenario.tmp crate_name /\
       forall code fs1,
         Scenario.cargo_fails "cargo" (sp_args sp) (sp_cwd sp) (sp_fs sp) =
           (Exited (Some code), fs1) ->
         code <> 0%Z ->
         fst R = Err (Bail "cargo failed") /\ w_fs (snd R) = fs1).
Proof.
  intros R.
  apply (run_build_invocation Linux Scenario.tmp Scenario.home Scenario.cargo_fails
           Scenario.debug_matches Scenario.world0 (fst R) (snd R)).
  vm_compute. reflexivity.
Defined.

Lemma run_missing_artifact_witness :
  fst (run Linux Scenario.tmp Scenario.home Scenario.cargo_no_artifact
           Scenario.debug_matches Scenario.world0) = Err (IoError NotFound) /\
  error_message (IoError NotFound) = "No such file or directory (os error 2)".
Proof.
  apply (run_missing_artifact Linux Scenario.tmp Scenario.home Scenario.cargo_no_artifact
           Scenario.debug_matches Scenario.world0 _
           (snd (run Linux Scenario.tmp Scenario.home Scenario.cargo_no_artifact
                     Scenario.debug_matches Scenario.world0))
           "foo-bar" ltac:(vm_compute; reflexivity) ltac:(vm_compute; reflexivity)
           Scenario.debug_spawn (w_fs Scenario.materialized)).
  - vm_compute. reflexivity.
  - vm_compute. reflexivity.
  - vm_compute. reflexivity.
  - vm_compute. intros Hin. set_solver.
Defined.

Lemma run_default_pyo3_selector_witness :
  exists crate_name deps toml,
    let module_name := replace_char hyphen underscore crate_name in
    file_stem Scenario.input = Some crate_name /\
    toml_to_string (cargo_config crate_name module_name "*") = Ok toml /\
    files (sp_fs Scenario.debug_spawn) !! join (join Scenario.tmp crate_name) "Cargo.toml" =
      Some (push_user_deps toml deps) /\
    map_to_list (dependencies (cargo_config crate_name module_name "*")) =
      [("pyo3", mkCargoDependency "*" ["extension-module"] None None)].
Proof.
  apply (run_default_pyo3_selector Linux Scenario.tmp Scenario.home Scenario.cargo_ok
           Scenario.debug_matches Scenario.world0
           (fst (run Linux Scenario.tmp Scenario.home Scenario.cargo_ok
                     Scenario.debug_matches Scenario.world0))
           (snd (run Linux Scenario.tmp Scenario.home Scenario.cargo_ok
                     Scenario.debug_matches Scenario.world0))).
  - reflexivity.
  - vm_compute. reflexivity.
  - vm_compute. reflexivity.
Defined.

(** * Further properties of the code *)

Lemma list_ascii_of_string_append (s1 s2 : string) :
  list_ascii_of_string (s1 ++ s2) = app (list_ascii_of_string s1) (list_ascii_of_string s2).
Proof. induction s1; simpl; f_equal; auto. Qed.

Lemma lines_go_newline (l : string) (cur : list ascii) (rest : string) :
  Forall (fun c => c <> newline) (list_ascii_of_string l) ->
  lines_go cur (l ++ String newline rest) =
  string_of_list_ascii (rev (strip_cr_rev (app (rev (list_ascii_of_string l)) cur)))
    :: lines_go [] rest.
Proof.
  revert cur. induction l as [|c l IH]; intros cur Hl; simpl.
  - reflexivity.
  - inversion Hl as [|? ? Hc Hl']; subst.
    replace (Ascii.eqb c newline) with false
      by (symmetry; apply Ascii.eqb_neq; exact Hc).
    rewrite IH by exact Hl'. rewrite <- app_assoc. reflexivity.
Qed.

Lemma lines_go_last (l : string) (cur : list ascii) :
  Forall (fun c => c <> newline) (list_ascii_of_string l) ->
  lines_go cur l =
  match app (rev (list_ascii_of_string l)) cur with
  | [] => []
  | x => [string_of_list_ascii (rev x)]
  end.
Proof.
  revert cur. induction l as [|c l IH]; intros cur Hl; simpl.
  - destruct cur; reflexivity.
  - inversion Hl as [|? ? Hc Hl']; subst.
    replace (Ascii.eqb c newline) with false
      by (symmetry; apply Ascii.eqb_neq; exact Hc).
    rewrite IH by exact Hl'. rewrite <- app_assoc. reflexivity.
Qed.

Lemma string_append_assoc (a b c : string) : (a ++ b) ++ c = a ++ (b ++ c).
Proof. induction a as [|x a IH]; [reflexivity|exact (f_equal (String x) IH)]. Qed.

Lemma no_newline_forall (l : string) :
  Forall (fun c => c <> newline) (list_ascii_of_string l) ->
  Forall (fun c => c <> newline) (list_ascii_of_string (l ++ String carriage_return "")).
Proof.
  intros H. rewrite list_ascii_of_string_append. apply Forall_app. split; [exact H|].
  repeat constructor. discriminate.
Qed.

Lemma string_of_list_ascii_app (x y : list ascii) :
  string_of_list_ascii (app x y) = string_of_list_ascii x ++ string_of_list_ascii y.
Proof.
  induction x as [|a x IH]; [reflexivity|exact (f_equal (String a) IH)].
Qed.

Lemma strip_cr_no_cr (l : string) :
  (forall p, l <> p ++ String carriage_return "") ->
  strip_cr_rev (rev (list_ascii_of_string l)) = rev (list_ascii_of_string l).
Proof.
  intros H. destruct (rev (list_ascii_of_string l)) as [|c r] eqn:E; [reflexivity|].
  cbn [strip_cr_rev]. destruct (Ascii.eqb c carriage_return) eqn:Ec; [|reflexivity].
  apply Ascii.eqb_eq in Ec. subst c. exfalso. apply (H (string_of_list_ascii (rev r))).
  rewrite <- (string_of_list_ascii_of_string l),
    <- (rev_involutive (list_ascii_of_string l)), E.
  cbn [rev]. rewrite string_of_list_ascii_app. reflexivity.
Qed.

Lemma terminated_cons (t l : string) (ls : list string) :
  terminated t (l :: ls) = l ++ t ++ terminated t ls.
Proof. reflexivity. Qed.

Lemma lines_terminated_crlf (ls : list string) :
  Forall (fun l => Forall (fun c => c <> newline) (list_ascii_of_string l)) ls ->
  lines (terminated crlf ls) = ls.
Proof.
  unfold lines. induction 1 as [|l ls Hl Hls IH]; [reflexivity|].
  rewrite terminated_cons.
  change (crlf ++ terminated crlf ls)
    with (String carriage_return (String newline (terminated crlf ls))).
  replace (l ++ String carriage_return (String newline (terminated crlf ls)))
    with ((l ++ String carriage_return "") ++ String newline (terminated crlf ls))
    by (rewrite string_append_assoc; reflexivity).
  rewrite lines_go_newline by (apply no_newline_forall; exact Hl).
  rewrite IH.
  rewrite list_ascii_of_string_append, app_nil_r, rev_app_distr.
  cbn [list_ascii_of_string rev app strip_cr_rev].
  rewrite Ascii.eqb_refl, rev_involutive, string_of_list_ascii_of_string. reflexivity.
Qed.

Lemma lines_terminated_lf (ls : list string) :
  Forall (fun l => Forall (fun c => c <> newline) (list_ascii_of_string l)) ls ->
  Forall (fun l => forall p, l <> p ++ String carriage_return "") ls ->
  lines (terminated nl ls) = ls.
Proof.
  unfold lines. induction 1 as [|l ls Hl Hls IH]; intros Hcr; [reflexivity|].
  inversion Hcr as [|? ? Hc Hcr']; subst.
  rewrite terminated_cons.
  change (nl ++ terminated nl ls) with (String newline (terminated nl ls)).
  rewrite lines_go_newline by exact Hl. rewrite IH by exact Hcr'.
  rewrite app_nil_r, strip_cr_no_cr by exact Hc.
  rewrite rev_involutive, string_of_list_ascii_of_string. reflexivity.
Qed.


Lemma collect_lines_all (ls : list string) :
  Forall (fun x => starts_with x "// " = true) ls ->
  collect_lines ls = map (chars_skip 3) ls.
Proof.
  induction 1 as [|x ls Hx _ IH]; [reflexivity|]. cbn. rewrite Hx. cbn. rewrite IH. reflexivity.
Qed.

(** X2. When every line of the input starts with [// ], the loop never
    breaks: one dependency per line, including a last line without a line
    feed; an empty input gives no dependency. *)
Theorem collect_deps_all_directives (w : World) (input : Path) (src : string) :
  files (w_fs w) !! input = Some src ->
  utf8_valid src = true ->
  Forall (fun x => starts_with x "// " = true) (lines src) ->
  collect_deps input w = (Ok (map (chars_skip 3) (lines src)), w).
Proof.
  intros Hf Hu Hall.
  unfold collect_deps, mbind, M_bind, fs_read, fs_read_fn, from_utf8.
  rewrite Hf, Hu. unfold mret, M_ret. rewrite collect_lines_all by exact Hall. reflexivity.
Qed.

(** X3. Line endings do not matter: a file whose lines (free of line feeds
    and not ending in a carriage return) are each terminated by LF, or each
    by CRLF, gives the dependencies [collect_lines] computes on those lines. *)
Theorem collect_deps_line_endings (w : World) (input : Path) (term : string)
    (ls : list string) :
  term = nl \/ term = crlf ->
  Forall (fun l => Forall (fun c => c <> newline) (list_ascii_of_string l)) ls ->
  Forall (fun l => forall p, l <> p ++ String carriage_return "") ls ->
  files (w_fs w) !! input = Some (terminated term ls) ->
  utf8_valid (terminated term ls) = true ->
  collect_deps input w = (Ok (collect_lines ls), w).
Proof.
  intros Ht Hnl Hcr Hf Hu.
  unfold collect_deps, mbind, M_bind, fs_read, fs_read_fn, from_utf8.
  rewrite Hf, Hu. unfold mret, M_ret.
  destruct Ht as [->| ->].
  - rewrite lines_terminated_lf by assumption. reflexivity.
  - rewrite lines_terminated_crlf by assumption. reflexivity.
Qed.

(** ** run: early failures, output and the spawned build *)
(** X7. When the input has no file stem (it is empty or ends in the root,
    [.] or [..]), [run] fails with the context message [No file stem] and
    leaves the world exactly as it was: nothing printed, written or
    started.  The arguments are valid Unicode, so line 127 has not
    panicked. *)
Theorem run_no_file_stem (os : Platform) (temp_dir cwd : Path) exec
    (m : Matches) (w : World) :
  args_utf8 m = true ->
  file_stem (input_arg m) = None ->
  run os temp_dir cwd exec m w = (Err (ContextError "No file stem"), w).
Proof.
  intros _ Hs. unfold run, mbind, M_bind, project_identity. rewrite Hs. reflexivity.
Qed.

Lemma collect_deps_fs (input : Path) (w1 w2 : World) :
  w_fs w1 = w_fs w2 ->
  collect_deps input w1 = (fst (collect_deps input w2), w1).
Proof.
  intros H. unfold collect_deps, mbind, M_bind, fs_read, from_utf8, mret, M_ret, fail.
  rewrite H. destruct (fs_read_fn (w_fs w2) input) as [b|e]; cbn; [|reflexivity].
  destruct (utf8_valid b); reflexivity.
Qed.

(** X8. When reading the input (resolved against the current directory)
    fails, [run] fails with that error before writing anything or starting
    any process. *)
Theorem run_read_error (os : Platform) (temp_dir cwd : Path) exec
    (m : Matches) (w : World) (crate_name : string) (e : Error) :
  file_stem (input_arg m) = Some crate_name ->
  utf8_valid crate_name = true ->
  fst (collect_deps (resolve cwd (input_arg m)) w) = Err e ->
  exists w', run os temp_dir cwd exec m w = (Err e, w') /\
    w_fs w' = w_fs w /\ w_log w' = w_log w.
Proof.
  intros Hs Hu Hc.
  unfold run, mbind, M_bind at 1, project_identity. rewrite Hs, Hu.
  unfold mret at 1, M_ret at 1. cbn zeta.
  set (wv := (if verbose m then println (path_display (join temp_dir crate_name))
              else mret tt) w).
  assert (Hwv : exists wv', wv = (Ok tt, wv') /\ w_fs wv' = w_fs w /\ w_log wv' = w_log w).
  { subst wv. destruct (verbose m); eexists; repeat split; reflexivity. }
  destruct Hwv as [wv' [Hwv [Hfs Hlog]]].
  unfold mbind, M_bind. fold wv. rewrite Hwv.
  rewrite (collect_deps_fs _ wv' w Hfs), Hc. eauto.
Qed.

Lemma collect_deps_world (input : Path) (w : World) :
  snd (collect_deps input w) = w.
Proof.
  unfold collect_deps, mbind, M_bind, fs_read, from_utf8, mret, M_ret, fail.
  destruct (fs_read_fn (w_fs w) input) as [b|e]; cbn; [|reflexivity].
  destruct (utf8_valid b); reflexivity.
Qed.

(** X9. Once the crate name is known, the only output of [run] is the
    workspace path, printed once and only with [--verbose], whatever
    happens afterwards. *)
Theorem run_stdout (os : Platform) (temp_dir cwd : Path) exec
    (m : Matches) (w : World) r w' (crate_name : string) :
  file_stem (input_arg m) = Some crate_name ->
  utf8_valid crate_name = true ->
  run os temp_dir cwd exec m w = (r, w') ->
  w_stdout w' = app (w_stdout w)
    (if verbose m then [path_display (join temp_dir crate_name)] else []).
Proof.
  intros Hs Hu H.
  unfold run, mbind, M_bind at 1, project_identity in H. rewrite Hs, Hu in H.
  unfold mret at 1, M_ret at 1 in H. cbn zeta in H.
  set (wv := (if verbose m then println (path_display (join temp_dir crate_name))
              else mret tt) w) in H.
  assert (Hwv : exists wv', wv = (Ok tt, wv') /\ w_stdout wv' = app (w_stdout w)
    (if verbose m then [path_display (join temp_dir crate_name)] else [])).
  { subst wv. destruct (verbose m); eexists; split; try reflexivity.
    cbn. rewrite app_nil_r. reflexivity. }
  destruct Hwv as [wv' [Hwv Hout]]. rewrite <- Hout.
  unfold mbind, M_bind in H. fold wv in H. rewrite Hwv in H.
  pose proof (collect_deps_world (resolve cwd (input_arg m)) wv') as Hc.
  destruct (collect_deps (resolve cwd (input_arg m)) wv') as [[deps|e] wc] eqn:Hcd;
    cbn in Hc; subst wc; [|injection H as _ <-; reflexivity].
  destruct (create_dir _ _ _ _ _ _ wv') as [[[]|e] w1] eqn:Hcr;
    pose proof (create_dir_log _ _ _ _ _ _ _ _ _ Hcr) as [_ Hs1];
    [|injection H as _ <-; exact Hs1].
  unfold command_status in H.
  destruct (exec _ _ _ _) as [[k|st] fs1];
    [injection H as _ <-; exact Hs1|].
  destruct (success st); cbn in H.
  - unfold fs_copy, lift_fs in H. cbn in H.
    destruct (fs_copy_fn _ _ _); injection H as _ <-; exact Hs1.
  - unfold fail in H. injection H as _ <-. exact Hs1.
Qed.

Lemma run_one_spawn os temp_dir cwd exec (m : Matches) (w : World) r w' sp :
  run os temp_dir cwd exec m w = (r, w') ->
  w_log w' = app (w_log w) [sp] ->
  exists crate_name deps wv w1 outcome fs1,
    let cargo_dir := join temp_dir crate_name in
    let module_name := replace_char hyphen underscore crate_name in
    sp = mkSpawn "cargo" (build_args (release m)) cargo_dir (w_fs w1) /\
    file_stem (input_arg m) = Some crate_name /\
    w_fs wv = w_fs w /\
    collect_deps (resolve cwd (input_arg m)) wv = (Ok deps, wv) /\
    create_dir cargo_dir (resolve cwd (input_arg m)) crate_name module_name deps
      (default "*" (pyo3 m)) wv = (Ok tt, w1) /\
    exec "cargo" (build_args (release m)) cargo_dir (w_fs w1) = (outcome, fs1) /\
    match outcome with
    | SpawnFailed k => r = Err (IoError k) /\ w_fs w' = fs1
    | Exited st =>
        if success st then
          match fs_copy_fn fs1 (lib_src_path os cargo_dir (release m) module_name)
                  (lib_dst_path cwd module_name) with
          | Ok fs2 => r = Ok tt /\ w_fs w' = fs2
          | Err e => r = Err e /\ w_fs w' = fs1
          end
        else r = Err (Bail "cargo failed") /\ w_fs w' = fs1
    end.
Proof.
  intros H Hsp. destruct (run_stages _ _ _ _ _ _ _ _ H) as [[Hl _]|Hs].
  - rewrite Hl in Hsp. apply (f_equal length) in Hsp.
    rewrite length_app in Hsp. simpl in Hsp. lia.
  - destruct Hs as (c & deps & wv & w1 & outcome & fs1 & Hs). cbn zeta in Hs.
    destruct Hs as (Hstem & Hfs & _ & Hc & Hcd & _ & Hexec & Hlog & Hout).
    rewrite Hlog in Hsp. apply app_inv_head in Hsp. injection Hsp as <-.
    exists c, deps, wv, w1, outcome, fs1. cbn zeta. auto 7.
Qed.

(** X10. When [cargo] cannot be started, [run] fails with the [io::Error] of
    the spawn and copies nothing. *)
Theorem run_spawn_failure (os : Platform) (temp_dir cwd : Path) exec
    (m : Matches) (w : World) r w' (sp : Spawn) (k : io_kind) (fs1 : FS) :
  run os temp_dir cwd exec m w = (r, w') ->
  w_log w' = app (w_log w) [sp] ->
  exec (sp_program sp) (sp_args sp) (sp_cwd sp) (sp_fs sp) = (SpawnFailed k, fs1) ->
  r = Err (IoError k) /\ w_fs w' = fs1.
Proof.
  intros H Hsp Hx.
  destruct (run_one_spawn _ _ _ _ _ _ _ _ _ H Hsp)
    as (c & deps & wv & w1 & outcome & fs1' & Hs). cbn zeta in Hs.
  destruct Hs as (-> & _ & _ & _ & _ & Hexec & Hout).
  cbn [sp_program sp_args sp_cwd sp_fs] in Hx. rewrite Hexec in Hx.
  injection Hx as -> ->. exact Hout.
Qed.

(** X11. Whenever [cargo] is started, its workspace holds the manifest built
    from the collected dependencies and the [--pyo3] selector (default
    [*]) and the linker configuration.  Its [src/lib.rs] holds the bytes
    the input had before the run when the input, resolved against the
    current directory, is neither the workspace's [Cargo.toml] nor its
    [src/lib.rs] (paths compared in their [canonical] form), and the
    generated manifest when the input is the workspace's [Cargo.toml]. *)
Theorem run_spawn_workspace (os : Platform) (temp_dir cwd : Path) exec
    (m : Matches) (w : World) r w' (sp : Spawn) :
  run os temp_dir cwd exec m w = (r, w') ->
  w_log w' = app (w_log w) [sp] ->
  exists crate_name deps toml,
    let cargo_dir := join temp_dir crate_name in
    let module_name := replace_char hyphen underscore crate_name in
    let input := resolve cwd (input_arg m) in
    let lib := join (join cargo_dir "src") "lib.rs" in
    file_stem (input_arg m) = Some crate_name /\
    collect_deps input w = (Ok deps, w) /\
    toml_to_string (cargo_config crate_name module_name (default "*" (pyo3 m))) = Ok toml /\
    files (sp_fs sp) !! join cargo_dir "Cargo.toml" = Some (push_user_deps toml deps) /\
    files (sp_fs sp) !! join (join cargo_dir ".cargo") "config.toml" = Some linker_config /\
    (canonical input = true -> canonical cargo_dir = true ->
     input <> join cargo_dir "Cargo.toml" -> input <> lib ->
     files (sp_fs sp) !! lib = files (w_fs w) !! input) /\
    (input = join cargo_dir "Cargo.toml" ->
     files (sp_fs sp) !! lib = Some (push_user_deps toml deps)).
Proof.
  intros H Hsp.
  destruct (run_one_spawn _ _ _ _ _ _ _ _ _ H Hsp)
    as (c & deps & wv & w1 & outcome & fs1 & Hs). cbn zeta in Hs.
  destruct Hs as (-> & Hstem & Hfs & Hc & Hcd & _ & _).
  destruct (create_dir_ok_files _ _ _ _ _ _ _ _ Hcd) as (toml & data & Ht & Hd & Hf).
  exists c, deps, toml. cbn zeta. cbn [sp_fs].
  split; [exact Hstem|]. split.
  { rewrite (collect_deps_fs _ w wv (eq_sym Hfs)), Hc. reflexivity. }
  split; [exact Ht|]. rewrite Hf. split.
  { rewrite lookup_insert_ne by (apply not_eq_sym, cargo_toml_ne_config).
    rewrite lookup_insert_ne by (apply not_eq_sym, cargo_toml_ne_lib_rs).
    apply lookup_insert_eq. }
  split; [apply lookup_insert_eq|].
  rewrite lookup_insert_ne by (apply not_eq_sym, lib_rs_ne_config).
  rewrite lookup_insert_eq. split.
  - intros _ _ Hne1 Hne2.
    rewrite lookup_insert_ne in Hd by (apply not_eq_sym; exact Hne1).
    rewrite Hfs in Hd. rewrite Hd, bool_decide_false by exact Hne2. reflexivity.
  - intros Heq. rewrite Heq, lookup_insert_eq in Hd. injection Hd as <-.
    rewrite Heq, bool_decide_false by exact (cargo_toml_ne_lib_rs _). reflexivity.
Qed.

(** ** create_dir: blocked workspaces, what it touches, re-runs *)
Lemma ancestors_app_self (p q : Path) : p <> [] -> In p (ancestors (app p q)).
Proof.
  induction p as [|c p IH]; intros Hp; [contradiction|].
  destruct p as [|c' p]; [left; reflexivity|].
  right. apply in_map. apply IH. discriminate.
Qed.

(** X12. When a non-empty prefix of the workspace path is a regular file,
    [create_dir] fails with NotADirectory and changes nothing. *)
Theorem create_dir_blocked (cargo_dir input : Path) (crate_name module_name : string)
    (deps : list string) (sel : string) (w : World) (p q : Path) (data : string) :
  p <> [] ->
  cargo_dir = app p q ->
  files (w_fs w) !! p = Some data ->
  create_dir cargo_dir input crate_name module_name deps sel w =
    (Err (IoError NotADirectory), w).
Proof.
  intros Hp -> Hf.
  unfold create_dir, mbind, M_bind at 1, fs_create_dir_all, lift_fs, fs_create_dir_all_fn.
  unfold parent, join at 2. rewrite removelast_last.
  replace (existsb (is_file (w_fs w)) (ancestors (join (app p q) "src"))) with true.
  2:{ symmetry. apply existsb_exists. exists p. split.
      - unfold join. rewrite <- app_assoc. apply ancestors_app_self, Hp.
      - unfold is_file. rewrite Hf. reflexivity. }
  replace (existsb (is_file (w_fs w)) (ancestors (app p q))) with true.
  2:{ symmetry. apply existsb_exists. exists p. split.
      - apply ancestors_app_self, Hp.
      - unfold is_file. rewrite Hf. reflexivity. }
  reflexivity.
Qed.

(** X13. [create_dir] writes no file other than [Cargo.toml], [src/lib.rs]
    and [.cargo/config.toml] of the workspace, removes no directory, and
    creates only the directories leading to [src] and [.cargo]. *)
Theorem create_dir_frame (cargo_dir input : Path) (crate_name module_name : string)
    (deps : list string) (sel : string) (w : World) r w' :
  create_dir cargo_dir input crate_name module_name deps sel w = (r, w') ->
  (forall p, p <> join cargo_dir "Cargo.toml" ->
     p <> join (join cargo_dir "src") "lib.rs" ->
     p <> join (join cargo_dir ".cargo") "config.toml" ->
     files (w_fs w') !! p = files (w_fs w) !! p) /\
  dirs (w_fs w) ⊆ dirs (w_fs w') /\
  (forall d, d ∈ dirs (w_fs w') ->
     d ∈ dirs (w_fs w) \/ In d (ancestors (join cargo_dir "src")) \/
     In d (ancestors (join cargo_dir ".cargo"))).
Proof.
  intros H.
  unfold create_dir, mbind, M_bind, fs_create_dir_all, fs_write, fs_copy, lift_fs,
    lift_result, fs_create_dir_all_fn, fs_write_fn, fs_copy_fn, set_file in H.
  destruct w as [fs0 log0 out0]; cbn [files w_fs] in *.
  repeat (case_match; cbn [files dirs w_fs w_log w_stdout] in *; simplify_eq).
  all: split; [intros p Hp1 Hp2 Hp3; rewrite ?lookup_insert_ne by congruence; reflexivity|].
  all: split; [set_solver|].
  all: intros d Hd; cbn [dirs files] in Hd;
    rewrite ?elem_of_union, ?elem_of_list_to_set in Hd;
    rewrite <- !list_elem_of_In; tauto.
Qed.

Lemma ancestors_length (p q : Path) :
  In p (ancestors q) -> length p <= length q /\ (length p = length q -> p = q).
Proof.
  revert p. induction q as [|c q IH]; intros p H; [contradiction|].
  destruct H as [<-|H].
  - cbn. split; [lia|]. intros Hl. destruct q; [reflexivity|cbn in Hl; lia].
  - apply in_map_iff in H as (p' & <- & Hp'). apply IH in Hp' as [H1 H2].
    cbn. split; [lia|]. intros Hl. f_equal. apply H2. lia.
Qed.

Lemma existsb_false_iff {A} (f : A -> bool) (l : list A) :
  existsb f l = false <-> forall x, In x l -> f x = false.
Proof.
  split.
  - intros H x Hx. destruct (f x) eqn:E; [|reflexivity].
    rewrite <- H. symmetry. apply existsb_exists. eauto.
  - intros H. destruct (existsb f l) eqn:E; [|reflexivity].
    apply existsb_exists in E as (x & Hx & Hf). rewrite H in Hf by exact Hx. discriminate.
Qed.

Lemma ancestors_self (d : Path) (c : string) : In (join d c) (ancestors (join d c)).
Proof.
  pose proof (ancestors_app_self (join d c) [] ltac:(unfold join; destruct d; discriminate))
    as H. rewrite app_nil_r in H. exact H.
Qed.

Lemma join_not_ancestor (d : Path) (a b : string) :
  a <> b -> ~ In (join d a) (ancestors (join d b)).
Proof.
  intros Hab H. apply ancestors_length in H as [_ H].
  rewrite !join_length in H. specialize (H eq_refl).
  unfold join in H. apply app_inj_tail in H as [_ H]. exact (Hab H).
Qed.

Lemma join2_not_ancestor (d : Path) (a b c : string) :
  ~ In (join (join d a) b) (ancestors (join d c)).
Proof.
  intros H. apply ancestors_length in H as [H _]. rewrite !join_length in H. lia.
Qed.

Lemma parent_join (d : Path) (c : string) : parent (join d c) = d.
Proof. apply removelast_last. Qed.

Lemma not_in_dirs_union (p : Path) (l : list Path) (ds : gset Path) :
  ~ In p l -> p ∉ ds -> p ∉ (list_to_set l ∪ ds : gset Path).
Proof.
  intros H1 H2. rewrite elem_of_union, elem_of_list_to_set, list_elem_of_In. tauto.
Qed.

(** Sufficient conditions for [create_dir] to succeed, and the world it
    leaves. *)
Lemma create_dir_succeeds (cargo_dir input : Path) (crate_name module_name : string)
    (deps : list string) (sel : string) (w : World) (data : string) :
  let fs := w_fs w in
  let src_dir := join cargo_dir "src" in
  let dot_cargo := join cargo_dir ".cargo" in
  let toml_p := join cargo_dir "Cargo.toml" in
  let lib_p := join src_dir "lib.rs" in
  let cfg_p := join dot_cargo "config.toml" in
  (forall p, In p (ancestors src_dir) -> files fs !! p = None) ->
  (forall p, In p (ancestors dot_cargo) -> files fs !! p = None) ->
  toml_p ∉ dirs fs -> lib_p ∉ dirs fs -> cfg_p ∉ dirs fs ->
  cargo_dir ∈ (list_to_set (ancestors src_dir) ∪ dirs fs : gset Path) ->
  files fs !! input = Some data -> input <> toml_p -> input <> lib_p ->
  exists toml,
    toml_to_string (cargo_config crate_name module_name sel) = Ok toml /\
    create_dir cargo_dir input crate_name module_name deps sel w =
      (Ok tt, mkWorld
         (mkFS (<[cfg_p := linker_config]> (<[lib_p := data]>
                  (<[toml_p := push_user_deps toml deps]> (files fs))))
               (list_to_set (ancestors dot_cargo) ∪
                  (list_to_set (ancestors src_dir) ∪ dirs fs)))
         (w_log w) (w_stdout w)).
Proof.
  cbn zeta. intros Hs Hd Ht Hl Hc Hp Hin Hn1 Hn2.
  assert (exists t, toml_to_string (cargo_config crate_name module_name sel) = Ok t)
    as [toml Et] by (eexists; reflexivity).
  exists toml. split; [exact Et|].
  destruct w as [fs0 log0 out0]. cbn [w_fs w_log w_stdout] in *.
  unfold create_dir, mbind, M_bind, fs_create_dir_all, fs_write, fs_copy, lift_fs,
    lift_result, fs_create_dir_all_fn, fs_write_fn, fs_copy_fn, set_file.
  cbn [w_fs files dirs].
  rewrite (proj2 (existsb_false_iff _ _))
    by (intros p Hq; unfold is_file; rewrite Hs by exact Hq; reflexivity).
  cbn [w_fs files dirs w_log w_stdout]. rewrite Et.
  unfold is_dir. cbn [files dirs].
  rewrite bool_decide_false
    by (apply not_in_dirs_union; [apply join_not_ancestor; discriminate|exact Ht]).
  rewrite parent_join, bool_decide_true by exact Hp. cbn [negb w_fs files dirs].
  rewrite lookup_insert_ne by (apply not_eq_sym; exact Hn1). rewrite Hin.
  rewrite bool_decide_false
    by (apply not_in_dirs_union; [apply join2_not_ancestor|exact Hl]).
  rewrite parent_join, bool_decide_true
    by (rewrite elem_of_union, elem_of_list_to_set, list_elem_of_In; left;
        apply ancestors_self).
  rewrite bool_decide_false by exact Hn2. cbn [negb w_fs files dirs w_log w_stdout].
  rewrite (proj2 (existsb_false_iff _ _)).
  2:{ intros p Hq. unfold is_file. cbn [files].
      rewrite lookup_insert_ne
        by (intros <-; exact (join2_not_ancestor _ _ _ _ Hq)).
      rewrite lookup_insert_ne
        by (intros <-; exact (join_not_ancestor cargo_dir "Cargo.toml" ".cargo" ltac:(discriminate) Hq)).
      rewrite Hd by exact Hq. reflexivity. }
  cbn [w_fs files dirs w_log w_stdout].
  rewrite bool_decide_false.
  2:{ apply not_in_dirs_union; [apply join2_not_ancestor|].
      apply not_in_dirs_union; [apply join2_not_ancestor|exact Hc]. }
  rewrite parent_join, bool_decide_true.
  2:{ rewrite elem_of_union, elem_of_list_to_set, list_elem_of_In; left.
      apply ancestors_self. }
  reflexivity.
Qed.

Lemma create_dir_ok_conditions (cargo_dir input : Path) (crate_name module_name : string)
    (deps : list string) (sel : string) (w w1 : World) :
  let fs := w_fs w in
  let src_dir := join cargo_dir "src" in
  let dot_cargo := join cargo_dir ".cargo" in
  let toml_p := join cargo_dir "Cargo.toml" in
  let lib_p := join src_dir "lib.rs" in
  let cfg_p := join dot_cargo "config.toml" in
  create_dir cargo_dir input crate_name module_name deps sel w = (Ok tt, w1) ->
  (forall p, In p (ancestors src_dir) -> files fs !! p = None) /\
  (forall p, In p (ancestors dot_cargo) -> files fs !! p = None) /\
  (toml_p ∉ dirs fs) /\ (lib_p ∉ dirs fs) /\ (cfg_p ∉ dirs fs) /\
  (cargo_dir ∈ (list_to_set (ancestors src_dir) ∪ dirs fs : gset Path)) /\
  (input <> toml_p -> exists data, files fs !! input = Some data).
Proof.
  cbn zeta. intros H.
  unfold create_dir, mbind, M_bind, fs_create_dir_all, fs_write, fs_copy, lift_fs,
    lift_result, fs_create_dir_all_fn, fs_write_fn, fs_copy_fn, set_file in H.
  destruct w as [fs0 log0 out0]; cbn [files w_fs] in *.
  repeat (case_match; cbn [files dirs w_fs w_log w_stdout] in *; simplify_eq).
  all: cbn [files dirs] in *; rewrite ?parent_join in *; unfold is_dir in *.
  all: repeat match goal with
    | Hb : bool_decide _ = false |- _ => apply bool_decide_eq_false in Hb
    | Hb : negb (bool_decide _) = false |- _ =>
        apply negb_false_iff, bool_decide_eq_true in Hb
    | Hb : existsb _ _ = false |- _ => rewrite existsb_false_iff in Hb
    end.
  all: split; [intros p Hq; match goal with
         Hb : forall x, In x ?l -> _, Hq : In p ?l |- _ => specialize (Hb p Hq) end;
       unfold is_file in *; destruct (files fs0 !! p); [discriminate|reflexivity]|].
  all: split; [intros p Hq; match goal with
         Hb : forall x, In x ?l -> _, Hq : In p ?l |- _ => specialize (Hb p Hq) end;
       unfold is_file in *; cbn [files] in *;
       rewrite lookup_insert_ne in * by (intros <-; exact (join2_not_ancestor _ _ _ _ Hq));
       rewrite lookup_insert_ne in *
         by (intros <-; exact (join_not_ancestor cargo_dir "Cargo.toml" ".cargo"
                                 ltac:(discriminate) Hq));
       destruct (files fs0 !! p); [discriminate|reflexivity]|].
  all: split; [set_solver|]. all: split; [set_solver|]. all: split; [set_solver|].
  all: split; [assumption|].
  all: intros Hne; rewrite lookup_insert_ne in * by (apply not_eq_sym; exact Hne); eauto.
Qed.

(** X15. Running [create_dir] again on the world it produced, with an input
    that is none of the three generated files (paths compared in their
    [canonical] form), succeeds and changes nothing. *)
Theorem create_dir_rerun (cargo_dir input : Path) (crate_name module_name : string)
    (deps : list string) (sel : string) (w w1 : World) :
  canonical cargo_dir = true ->
  canonical input = true ->
  create_dir cargo_dir input crate_name module_name deps sel w = (Ok tt, w1) ->
  input <> join cargo_dir "Cargo.toml" ->
  input <> join (join cargo_dir "src") "lib.rs" ->
  input <> join (join cargo_dir ".cargo") "config.toml" ->
  create_dir cargo_dir input crate_name module_name deps sel w1 = (Ok tt, w1).
Proof.
  intros _ _ H Hn1 Hn2 Hn3.
  destruct (create_dir_ok_conditions _ _ _ _ _ _ _ _ H)
    as (Hs & Hd & Ht & Hl & Hc & Hp & Hin). cbn zeta in *.
  destruct (Hin Hn1) as [data Hdata].
  destruct (create_dir_succeeds cargo_dir input crate_name module_name deps sel w data
              Hs Hd Ht Hl Hc Hp Hdata Hn1 Hn2)
    as (toml & Et & H1). rewrite H1 in H. injection H as <-.
  destruct w as [fs0 log0 out0]. cbn [w_fs w_log w_stdout] in *.
  set (T := join cargo_dir "Cargo.toml") in *.
  set (L := join (join cargo_dir "src") "lib.rs") in *.
  set (C := join (join cargo_dir ".cargo") "config.toml") in *.
  assert (HLT : L <> T) by (apply not_eq_sym, cargo_toml_ne_lib_rs).
  assert (HCT : C <> T) by (apply not_eq_sym, cargo_toml_ne_config).
  assert (HCL : C <> L) by (apply not_eq_sym, lib_rs_ne_config).
  set (files1 := <[C:=linker_config]> (<[L:=data]> (<[T:=push_user_deps toml deps]>
                   (files fs0)))).
  set (dirs1 := list_to_set (ancestors (join cargo_dir ".cargo")) ∪
                  (list_to_set (ancestors (join cargo_dir "src")) ∪ dirs fs0) : gset Path).
  edestruct (create_dir_succeeds cargo_dir input crate_name module_name deps sel
               (mkWorld (mkFS files1 dirs1) log0 out0) data) as (toml' & Et' & H2).
  - cbn. intros p Hq. subst files1.
    rewrite lookup_insert_ne by (intros <-; exact (join2_not_ancestor _ _ _ _ Hq)).
    rewrite lookup_insert_ne by (intros <-; exact (join2_not_ancestor _ _ _ _ Hq)).
    rewrite lookup_insert_ne
      by (intros <-; exact (join_not_ancestor cargo_dir "Cargo.toml" "src"
                              ltac:(discriminate) Hq)).
    apply Hs, Hq.
  - cbn. intros p Hq. subst files1.
    rewrite lookup_insert_ne by (intros <-; exact (join2_not_ancestor _ _ _ _ Hq)).
    rewrite lookup_insert_ne by (intros <-; exact (join2_not_ancestor _ _ _ _ Hq)).
    rewrite lookup_insert_ne
      by (intros <-; exact (join_not_ancestor cargo_dir "Cargo.toml" ".cargo"
                              ltac:(discriminate) Hq)).
    apply Hd, Hq.
  - cbn. subst dirs1.
    apply not_in_dirs_union; [apply join_not_ancestor; discriminate|].
    apply not_in_dirs_union; [apply join_not_ancestor; discriminate|exact Ht].
  - cbn. subst dirs1.
    apply not_in_dirs_union; [apply join2_not_ancestor|].
    apply not_in_dirs_union; [apply join2_not_ancestor|exact Hl].
  - cbn. subst dirs1.
    apply not_in_dirs_union; [apply join2_not_ancestor|].
    apply not_in_dirs_union; [apply join2_not_ancestor|exact Hc].
  - cbn. subst dirs1. set_solver.
  - cbn. subst files1.
    rewrite lookup_insert_ne by (apply not_eq_sym; exact Hn3).
    rewrite lookup_insert_ne by (apply not_eq_sym; exact Hn2).
    rewrite lookup_insert_ne by (apply not_eq_sym; exact Hn1). exact Hdata.
  - exact Hn1.
  - exact Hn2.
  - rewrite Et in Et'. injection Et' as <-. rewrite H2. cbn [w_fs w_log w_stdout files dirs].
    assert (Hf : <[C:=linker_config]> (<[L:=data]> (<[T:=push_user_deps toml deps]> files1))
                 = files1).
    { rewrite (insert_id files1 T).
      2:{ subst files1. rewrite lookup_insert_ne by exact HCT.
          rewrite lookup_insert_ne by exact HLT. apply lookup_insert_eq. }
      rewrite (insert_id files1 L).
      2:{ subst files1. rewrite lookup_insert_ne by exact HCL.
          apply lookup_insert_eq. }
      apply insert_id. subst files1. apply lookup_insert_eq. }
    assert (Hds : list_to_set (ancestors (join cargo_dir ".cargo")) ∪
                    (list_to_set (ancestors (join cargo_dir "src")) ∪ dirs1) = dirs1).
    { apply leibniz_equiv. subst dirs1. set_solver. }
    unfold T, L, C in Hf. rewrite Hf, Hds. reflexivity.
Qed.

(** ** The crate name taken from the input file name *)
Lemma last_dot_go_no_dot (s : string) (i : nat) (found : option nat) :
  Forall (fun c => c <> dot) (list_ascii_of_string s) ->
  last_dot_go s i found = found.
Proof.
  revert i found. induction s as [|c s IH]; intros i found H; [reflexivity|].
  inversion H as [|? ? Hc Hs]; subst. cbn.
  replace (Ascii.eqb c dot) with false by (symmetry; apply Ascii.eqb_neq; exact Hc).
  apply IH, Hs.
Qed.

Lemma last_dot_go_split (a b : string) (i : nat) (found : option nat) :
  Forall (fun c => c <> dot) (list_ascii_of_string b) ->
  last_dot_go (a ++ String dot b) i found = Some (i + String.length a).
Proof.
  revert i found. induction a as [|c a IH]; intros i found H.
  - change ("" ++ String dot b) with (String dot b). cbn.
    rewrite ?Ascii.eqb_refl, last_dot_go_no_dot by exact H. f_equal. lia.
  - change (String c a ++ String dot b) with (String c (a ++ String dot b)). cbn.
    rewrite IH by exact H. f_equal. lia.
Qed.

Lemma substring_app_length (a b : string) :
  substring 0 (String.length a) (a ++ b) = a.
Proof.
  induction a as [|c a IH]; [destruct b; reflexivity|]. exact (f_equal (String c) IH).
Qed.

Lemma file_stem_strips_extension (dir : Path) (base ext : string) :
  base <> "" ->
  Forall (fun c => c <> dot) (list_ascii_of_string ext) ->
  base ++ "." ++ ext <> ".." ->
  file_stem (join dir (base ++ "." ++ ext)) = Some base.
Proof.
  intros Hb He Hdd. change ("." ++ ext) with (String dot ext) in *.
  unfold file_stem, file_name, join. rewrite last_snoc.
  assert (Hslash : String.eqb (base ++ String dot ext) "/" = false).
  { apply String.eqb_neq. intros H. apply (f_equal String.length) in H.
    rewrite string_length_append in H. cbn in H. destruct base; [contradiction|].
    cbn in H. lia. }
  assert (Hdot : String.eqb (base ++ String dot ext) "." = false).
  { apply String.eqb_neq. intros H. apply (f_equal String.length) in H.
    rewrite string_length_append in H. cbn in H. destruct base; [contradiction|].
    cbn in H. lia. }
  rewrite Hslash, Hdot. replace (String.eqb (base ++ String dot ext) "..") with false
    by (symmetry; apply String.eqb_neq; exact Hdd).
  cbn [orb]. f_equal. unfold stem_of_name.
  replace (String.eqb (base ++ String dot ext) "..") with false
    by (symmetry; apply String.eqb_neq; exact Hdd).
  unfold last_dot. rewrite last_dot_go_split by exact He. cbn [Nat.add].
  rewrite substring_app_length.
  replace (String.eqb base "") with false by (symmetry; apply String.eqb_neq; exact Hb).
  reflexivity.
Qed.

Lemma file_stem_without_extension (dir : Path) (name : string) :
  Forall (fun c => c <> dot) (tail (list_ascii_of_string name)) ->
  name <> "/" -> name <> "." ->
  file_stem (join dir name) = Some name.
Proof.
  intros Hn Hs Hd. unfold file_stem, file_name, join. rewrite last_snoc.
  assert (Hdd : name <> "..").
  { intros ->. cbn in Hn. inversion Hn as [|? ? Hc _]. apply Hc. reflexivity. }
  replace (String.eqb name "/") with false by (symmetry; apply String.eqb_neq; exact Hs).
  replace (String.eqb name ".") with false by (symmetry; apply String.eqb_neq; exact Hd).
  replace (String.eqb name "..") with false by (symmetry; apply String.eqb_neq; exact Hdd).
  cbn [orb]. f_equal. unfold stem_of_name.
  replace (String.eqb name "..") with false by (symmetry; apply String.eqb_neq; exact Hdd).
  unfold last_dot. destruct name as [|c rest]; [reflexivity|].
  cbn [last_dot_go]. rewrite last_dot_go_no_dot by exact Hn.
  destruct (Ascii.eqb c dot); reflexivity.
Qed.

(** X5. For an input named [base.ext] with no dot in [ext], the crate name
    is [base] and the module name is [base] with hyphens replaced; nothing
    else happens. *)
Theorem crate_name_strips_extension (dir : Path) (base ext : string) (w : World) :
  base <> "" ->
  Forall (fun c => c <> dot) (list_ascii_of_string ext) ->
  base ++ "." ++ ext <> ".." ->
  utf8_valid base = true ->
  project_identity (join dir (base ++ "." ++ ext)) w =
    (Ok (base, replace_char hyphen underscore base), w).
Proof.
  intros Hb He Hdd Hu. unfold project_identity.
  rewrite file_stem_strips_extension by assumption. rewrite Hu. reflexivity.
Qed.

Lemma normal_component_names (c : string) :
  normal_component c = true -> c <> "/" /\ c <> "." /\ c <> "..".
Proof.
  unfold normal_component. intros H.
  repeat split; intros ->; vm_compute in H; discriminate.
Qed.

(** X6. For an input whose last component is a file name with no dot after
    its first character (no extension, or a dotfile such as [.hidden]),
    the crate name is the whole file name. *)
Theorem crate_name_whole_file_name (dir : Path) (name : string) (w : World) :
  Forall (fun c => c <> dot) (tail (list_ascii_of_string name)) ->
  normal_component name = true ->
  utf8_valid name = true ->
  project_identity (join dir name) w =
    (Ok (name, replace_char hyphen underscore name), w).
Proof.
  intros Hn Hc Hu. unfold project_identity.
  destruct (normal_component_names name Hc) as (Hs & Hd & _).
  rewrite file_stem_without_extension by assumption. rewrite Hu. reflexivity.
Qed.

(** ** The dependency lines of the manifest *)
Lemma lines_go_app_newline (a b : string) (cur : list ascii) :
  lines_go cur (a ++ String newline b) = app (lines_go cur (a ++ nl)) (lines_go [] b).
Proof.
  revert cur. induction a as [|c a IH]; intros cur.
  - reflexivity.
  - change (String c a ++ String newline b) with (String c (a ++ String newline b)).
    change (String c a ++ nl) with (String c (a ++ nl)).
    cbn [lines_go]. destruct (Ascii.eqb c newline).
    + rewrite (IH []). reflexivity.
    + apply IH.
Qed.

Lemma lines_one (d : string) :
  Forall (fun c => c <> newline) (list_ascii_of_string d) ->
  d <> "" -> lines d = [d].
Proof.
  intros Hd Hne. unfold lines. rewrite lines_go_last by exact Hd.
  rewrite app_nil_r. destruct (rev (list_ascii_of_string d)) eqn:E.
  - exfalso. apply Hne. rewrite <- (string_of_list_ascii_of_string d).
    rewrite <- (rev_involutive (list_ascii_of_string d)), E. reflexivity.
  - rewrite <- E, rev_involutive, string_of_list_ascii_of_string. reflexivity.
Qed.

Lemma lines_concat_nl (ds : list string) :
  Forall (fun l => Forall (fun c => c <> newline) (list_ascii_of_string l)) ds ->
  Forall (fun l => forall p, l <> p ++ String carriage_return "") ds ->
  last ds <> Some "" ->
  lines (String.concat nl ds) = ds.
Proof.
  induction ds as [|d ds IH]; intros Hnl Hcr Hlast; [reflexivity|].
  inversion Hnl as [|? ? Hd Hnl']; inversion Hcr as [|? ? Hc Hcr']; subst.
  destruct ds as [|d2 ds].
  - apply lines_one; [exact Hd|]. intros ->. apply Hlast. reflexivity.
  - change (String.concat nl (d :: d2 :: ds))
      with (d ++ String newline (String.concat nl (d2 :: ds))).
    unfold lines. rewrite lines_go_newline by exact Hd.
    rewrite app_nil_r, strip_cr_no_cr by exact Hc.
    rewrite rev_involutive, string_of_list_ascii_of_string.
    fold (lines (String.concat nl (d2 :: ds))).
    rewrite IH; [reflexivity|exact Hnl'|exact Hcr'|].
    rewrite last_cons_cons in Hlast. exact Hlast.
Qed.

Lemma ends_nl_app (a b : string) :
  (exists t, b = t ++ nl) -> exists t, a ++ b = t ++ nl.
Proof. intros [t ->]. exists (a ++ t). symmetry. apply string_append_assoc. Qed.

Lemma string_append_nil_r (a : string) : a ++ "" = a.
Proof. induction a as [|c a IH]; [reflexivity|exact (f_equal (String c) IH)]. Qed.

Lemma toml_ends_nl (crate_name module_name sel toml : string) :
  toml_to_string (cargo_config crate_name module_name sel) = Ok toml ->
  exists t, toml = t ++ nl.
Proof.
  unfold toml_to_string. intros H. injection H as <-.
  unfold cargo_config. cbn [dependencies].
  rewrite insert_empty, map_to_list_singleton. cbn [map].
  change (String.concat "" [?x]) with x.
  unfold toml_dependency, pyo3_dependency.
  destruct (String.eqb sel "github"); cbn [git branch toml_opt dep_version features].
  - repeat apply ends_nl_app. exists "". reflexivity.
  - change ("" ++ "") with "". rewrite string_append_nil_r.
    repeat apply ends_nl_app. exists "". reflexivity.
Qed.

Lemma manifest_dependency_lines (toml : string) (deps : list string) :
  (exists t, toml = t ++ nl) ->
  Forall (fun l => Forall (fun c => c <> newline) (list_ascii_of_string l)) deps ->
  Forall (fun l => forall p, l <> p ++ String carriage_return "") deps ->
  last deps <> Some "" ->
  lines (push_user_deps toml deps) =
    app (lines toml) ("" :: "[dependencies]" :: deps).
Proof.
  intros [t ->] Hnl Hcr Hlast. unfold push_user_deps, lines.
  rewrite string_append_assoc.
  change (nl ++ nl ++ "[dependencies]" ++ nl ++ String.concat nl deps)
    with (String newline (String newline
            ("[dependencies]" ++ String newline (String.concat nl deps)))).
  rewrite lines_go_app_newline. f_equal.
  cbn [lines_go]. rewrite lines_go_newline by (repeat constructor; discriminate).
  fold (lines (String.concat nl deps)). rewrite lines_concat_nl by assumption.
  reflexivity.
Qed.

(** X14. When the dependencies have no line feed, none ends in a carriage
    return and the last is not empty, the lines of the written [Cargo.toml]
    are those of the TOML text, an empty line, the [[dependencies]]
    heading, and then exactly the dependencies, one per line. *)
Theorem create_dir_manifest_lines (cargo_dir input : Path)
    (crate_name module_name : string) (deps : list string) (sel : string)
    (w w' : World) :
  create_dir cargo_dir input crate_name module_name deps sel w = (Ok tt, w') ->
  Forall (fun l => Forall (fun c => c <> newline) (list_ascii_of_string l)) deps ->
  Forall (fun l => forall p, l <> p ++ String carriage_return "") deps ->
  last deps <> Some "" ->
  exists toml text,
    toml_to_string (cargo_config crate_name module_name sel) = Ok toml /\
    files (w_fs w') !! join cargo_dir "Cargo.toml" = Some text /\
    lines text = app (lines toml) ("" :: "[dependencies]" :: deps).
Proof.
  intros H Hnl Hcr Hlast.
  destruct (create_dir_ok_files _ _ _ _ _ _ _ _ H) as (toml & data & Ht & _ & Hf).
  exists toml, (push_user_deps toml deps). split; [exact Ht|]. split.
  - rewrite Hf.
    rewrite lookup_insert_ne by (apply not_eq_sym, cargo_toml_ne_config).
    rewrite lookup_insert_ne by (apply not_eq_sym, cargo_toml_ne_lib_rs).
    apply lookup_insert_eq.
  - apply manifest_dependency_lines; [eapply toml_ends_nl; exact Ht|..]; assumption.
Qed.

(** Every piece [lines] yields is free of line feeds. *)
Lemma strip_cr_rev_forall (P : ascii -> Prop) (cur : list ascii) :
  Forall P cur -> Forall P (strip_cr_rev cur).
Proof.
  destruct cur as [|c r]; intros H; [constructor|]. cbn.
  destruct (Ascii.eqb c carriage_return); [inversion H; assumption|exact H].
Qed.

Lemma lines_go_no_newline (s : string) (cur : list ascii) :
  Forall (fun c => c <> newline) cur ->
  Forall (fun l => Forall (fun c => c <> newline) (list_ascii_of_string l)) (lines_go cur s).
Proof.
  revert cur. induction s as [|c s IH]; intros cur Hcur; cbn [lines_go].
  - destruct cur; repeat constructor.
    rewrite list_ascii_of_string_of_list_ascii. apply Forall_rev. exact Hcur.
  - destruct (Ascii.eqb c newline) eqn:Hc.
    + constructor; [|apply IH; constructor].
      rewrite list_ascii_of_string_of_list_ascii. apply Forall_rev.
      apply strip_cr_rev_forall, Hcur.
    + apply IH. constructor; [|exact Hcur]. apply Ascii.eqb_neq, Hc.
Qed.

Lemma chars_skip_forall (P : ascii -> Prop) (n : nat) (s : string) :
  Forall P (list_ascii_of_string s) -> Forall P (list_ascii_of_string (chars_skip n s)).
Proof.
  revert s. induction n as [|n IH]; intros [|c s] H; cbn; try exact H; try constructor.
  apply IH. inversion H; assumption.
Qed.

Lemma collect_lines_forall (P : ascii -> Prop) (ls : list string) :
  Forall (fun l => Forall P (list_ascii_of_string l)) ls ->
  Forall (fun l => Forall P (list_ascii_of_string l)) (collect_lines ls).
Proof.
  induction 1 as [|l ls Hl _ IH]; cbn [collect_lines]; [constructor|].
  destruct (negb (starts_with l "// ")); [constructor|].
  constructor; [apply chars_skip_forall, Hl|exact IH].
Qed.

(** X4. No dependency [collect_deps] returns contains a line feed. *)
Theorem collect_deps_no_newline (input : Path) (w w' : World) (deps : list string) :
  collect_deps input w = (Ok deps, w') ->
  Forall (fun d => Forall (fun c => c <> newline) (list_ascii_of_string d)) deps.
Proof.
  unfold collect_deps, mbind, M_bind, fs_read, from_utf8, mret, M_ret, fail.
  destruct (fs_read_fn (w_fs w) input) as [b|e]; cbn; [|discriminate].
  destruct (utf8_valid b); [|discriminate]. intros H. injection H as <- _.
  apply collect_lines_forall, lines_go_no_newline. constructor.
Qed.

Lemma not_ends_with_cr (l : string) :
  match rev (list_ascii_of_string l) with
  | c :: _ => c <> carriage_return
  | [] => True
  end ->
  forall p, l <> p ++ String carriage_return "".
Proof.
  intros H p ->. rewrite list_ascii_of_string_append, rev_app_distr in H.
  apply H. reflexivity.
Qed.

(** ** Witnesses of the further properties *)


Lemma collect_deps_all_directives_witness :
  collect_deps Scenario.input Edge.world_deps_only =
    (Ok (map (chars_skip 3) (lines Edge.deps_only_text)), Edge.world_deps_only).
Proof.
  apply collect_deps_all_directives.
  - vm_compute. reflexivity.
  - vm_compute. reflexivity.
  - vm_compute. repeat constructor.
Defined.

Lemma collect_deps_line_endings_witness :
  collect_deps Scenario.input Edge.world_crlf =
    (Ok (collect_lines Edge.crlf_lines), Edge.world_crlf).
Proof.
  apply (collect_deps_line_endings Edge.world_crlf Scenario.input crlf Edge.crlf_lines).
  - right. reflexivity.
  - vm_compute. repeat constructor; discriminate.
  - repeat constructor; apply not_ends_with_cr; vm_compute; discriminate.
  - vm_compute. reflexivity.
  - vm_compute. reflexivity.
Defined.

Lemma collect_deps_no_newline_witness :
  Forall (fun d => Forall (fun c => c <> newline) (list_ascii_of_string d))
    (collect_lines (lines Scenario.src_text)).
Proof.
  apply (collect_deps_no_newline Scenario.input Scenario.world0 Scenario.world0).
  vm_compute. reflexivity.
Defined.

Lemma run_no_file_stem_witness :
  run Linux Scenario.tmp Scenario.home Scenario.cargo_ok Edge.root_matches Scenario.world0 =
    (Err (ContextError "No file stem"), Scenario.world0).
Proof.
  apply run_no_file_stem; vm_compute; reflexivity.
Defined.

Lemma run_read_error_witness :
  exists w', run Linux Scenario.tmp Scenario.home Scenario.cargo_ok Edge.missing_matches
               Scenario.world0 = (Err (IoError NotFound), w') /\
    w_fs w' = w_fs Scenario.world0 /\ w_log w' = w_log Scenario.world0.
Proof.
  apply (run_read_error Linux Scenario.tmp Scenario.home Scenario.cargo_ok
           Edge.missing_matches Scenario.world0 "missing").
  - vm_compute. reflexivity.
  - vm_compute. reflexivity.
  - vm_compute. reflexivity.
Defined.

Lemma run_stdout_witness :
  w_stdout (snd (run Linux Scenario.tmp Scenario.home Scenario.cargo_ok
                     Edge.verbose_matches Scenario.world0)) =
    app (w_stdout Scenario.world0) [path_display (join Scenario.tmp "foo-bar")].
Proof.
  apply (run_stdout Linux Scenario.tmp Scenario.home Scenario.cargo_ok
           Edge.verbose_matches Scenario.world0
           (fst (run Linux Scenario.tmp Scenario.home Scenario.cargo_ok
                     Edge.verbose_matches Scenario.world0))
           _ "foo-bar").
  - vm_compute. reflexivity.
  - vm_compute. reflexivity.
  - reflexivity.
Defined.

Lemma run_spawn_failure_witness :
  fst (run Linux Scenario.tmp Scenario.home Edge.cargo_not_installed
           Scenario.debug_matches Scenario.world0) = Err (IoError NotFound) /\
  w_fs (snd (run Linux Scenario.tmp Scenario.home Edge.cargo_not_installed
                 Scenario.debug_matches Scenario.world0)) = w_fs Scenario.materialized.
Proof.
  apply (run_spawn_failure Linux Scenario.tmp Scenario.home Edge.cargo_not_installed
           Scenario.debug_matches Scenario.world0 _ _ Scenario.debug_spawn).
  - reflexivity.
  - vm_compute. reflexivity.
  - reflexivity.
Defined.

Lemma run_spawn_workspace_witness :
  (exists toml,
     files (sp_fs Relative.spawn) !! join (join Scenario.cargo_dir_alias "src") "lib.rs" =
       Some (push_user_deps toml [])) /\
  files (sp_fs Scenario.debug_spawn) !! join (join Scenario.workspace "src") "lib.rs" =
    files (w_fs Scenario.world0) !! Scenario.input.
Proof.
  split.
  - destruct (run_spawn_workspace Linux Scenario.tmp Scenario.cargo_dir_alias
                Scenario.cargo_ok Relative.matches Scenario.world_alias
                (fst (run Linux Scenario.tmp Scenario.cargo_dir_alias Scenario.cargo_ok
                          Relative.matches Scenario.world_alias))
                (snd (run Linux Scenario.tmp Scenario.cargo_dir_alias Scenario.cargo_ok
                          Relative.matches Scenario.world_alias))
                Relative.spawn ltac:(reflexivity) ltac:(vm_compute; reflexivity))
      as (c & deps & toml & Hs).
    cbn zeta in Hs. destruct Hs as (Hstem & Hc & _ & _ & _ & _ & Halias).
    vm_compute in Hstem. injection Hstem as <-.
    vm_compute in Hc. injection Hc as <-.
    exists toml. apply Halias. vm_compute. reflexivity.
  - destruct (run_spawn_workspace Linux Scenario.tmp Scenario.home Scenario.cargo_ok
                Scenario.debug_matches Scenario.world0
                (fst (run Linux Scenario.tmp Scenario.home Scenario.cargo_ok
                          Scenario.debug_matches Scenario.world0))
                (snd (run Linux Scenario.tmp Scenario.home Scenario.cargo_ok
                          Scenario.debug_matches Scenario.world0))
                Scenario.debug_spawn ltac:(reflexivity) ltac:(vm_compute; reflexivity))
      as (c & deps & toml & Hs).
    cbn zeta in Hs. destruct Hs as (Hstem & _ & _ & _ & _ & Hcopy & _).
    vm_compute in Hstem. injection Hstem as <-.
    apply Hcopy; vm_compute; first [reflexivity | congruence].
Defined.

Lemma create_dir_blocked_witness :
  create_dir Scenario.workspace Scenario.input "foo-bar" "foo_bar" [] "*" Edge.world_blocked =
    (Err (IoError NotADirectory), Edge.world_blocked).
Proof.
  apply (create_dir_blocked _ _ _ _ _ _ _ Scenario.workspace [] "x").
  - discriminate.
  - vm_compute. reflexivity.
  - vm_compute. reflexivity.
Defined.

Lemma create_dir_frame_witness :
  (forall p, p <> join Scenario.workspace "Cargo.toml" ->
     p <> join (join Scenario.workspace "src") "lib.rs" ->
     p <> join (join Scenario.workspace ".cargo") "config.toml" ->
     files (w_fs Scenario.materialized) !! p = files (w_fs Scenario.world0) !! p) /\
  dirs (w_fs Scenario.world0) ⊆ dirs (w_fs Scenario.materialized) /\
  (forall d, d ∈ dirs (w_fs Scenario.materialized) ->
     d ∈ dirs (w_fs Scenario.world0) \/ In d (ancestors (join Scenario.workspace "src")) \/
     In d (ancestors (join Scenario.workspace ".cargo"))).
Proof.
  apply (create_dir_frame Scenario.workspace Scenario.input "foo-bar" "foo_bar"
           [Scenario.dep_a; Scenario.dep_b] "*" Scenario.world0 (Ok tt)).
  vm_compute. reflexivity.
Defined.

Lemma create_dir_manifest_lines_witness :
  exists toml text,
    toml_to_string (cargo_config "foo-bar" "foo_bar" "*") = Ok toml /\
    files (w_fs Scenario.materialized) !! join Scenario.workspace "Cargo.toml" = Some text /\
    lines text = app (lines toml) ("" :: "[dependencies]" :: [Scenario.dep_a; Scenario.dep_b]).
Proof.
  apply (create_dir_manifest_lines Scenario.workspace Scenario.input "foo-bar" "foo_bar"
           [Scenario.dep_a; Scenario.dep_b] "*" Scenario.world0).
  - vm_compute. reflexivity.
  - vm_compute. repeat constructor; discriminate.
  - repeat constructor; apply not_ends_with_cr; vm_compute; discriminate.
  - vm_compute. discriminate.
Defined.


Lemma crate_name_strips_extension_witness :
  project_identity (join Scenario.home ("foo-bar" ++ "." ++ "rs")) Scenario.world0 =
    (Ok ("foo-bar", replace_char hyphen underscore "foo-bar"), Scenario.world0).
Proof.
  apply crate_name_strips_extension.
  - discriminate.
  - vm_compute. repeat constructor; discriminate.
  - vm_compute. discriminate.
  - vm_compute. reflexivity.
Defined.

Lemma crate_name_whole_file_name_witness :
  project_identity (join Scenario.home ".hidden") Scenario.world0 =
    (Ok (".hidden", replace_char hyphen underscore ".hidden"), Scenario.world0).
Proof.
  apply crate_name_whole_file_name.
  - vm_compute. repeat constructor; discriminate.
  - vm_compute. reflexivity.
  - vm_compute. reflexivity.
Defined.

Lemma create_dir_rerun_witness :
  create_dir Scenario.workspace Scenario.input "foo-bar" "foo_bar"
    [Scenario.dep_a; Scenario.dep_b] "*" Scenario.materialized =
    (Ok tt, Scenario.materialized).
Proof.
  apply (create_dir_rerun Scenario.workspace Scenario.input "foo-bar" "foo_bar"
           [Scenario.dep_a; Scenario.dep_b] "*" Scenario.world0).
  - vm_compute. reflexivity.
  - vm_compute. reflexivity.
  - vm_compute. reflexivity.
  - vm_compute. congruence.
  - vm_compute. congruence.
  - vm_compute. congruence.
Defined.
